(** * The Variables view of the debugger workbench

    A shallow embedding of
    [src/vs/workbench/contrib/debug/browser/variablesView.ts]:
    the debounced tree refresh of [VariablesView], the view-state cache,
    the data source and the template dispatch of the tree, and the
    data-breakpoint commands. *)

From stdpp Require Import base option strings gmap list.

Set Warnings "-register-all".

(** ** The debug model, as far as this file reads it

    The classes come from [debug/common/debugModel] (import on line 46 of
    the source); only the members that [variablesView.ts] touches are kept.
    [Variable] is a reserved word, so the class names carry the prefix
    [C_]. *)

Inductive Class :=
| C_ErrorScope
| C_Scope
| C_Variable
| C_Expression
| C_VisualizedExpression
| C_StackFrame.

#[global] Instance Class_eq_dec : EqDecision Class.
Proof. solve_decision. Defined.

(** [class ErrorScope extends Scope]; the other classes of the list have no
    parent inside the list. *)
Definition extends (c : Class) : option Class :=
  match c with
  | C_ErrorScope => Some C_Scope
  | _ => None
  end.

(** [x instanceof k] for an object whose constructor is [c]: walk the
    prototype chain. *)
Fixpoint instanceofFuel (fuel : nat) (c k : Class) : bool :=
  if bool_decide (c = k) then true
  else match fuel, extends c with
       | S fuel', Some parent => instanceofFuel fuel' parent k
       | _, _ => false
       end.

Definition instanceof (c k : Class) : bool := instanceofFuel 6 c k.

(** An element of the tree, [IExpression | IScope]. *)
Inductive TreeElement := mkElement {
  cls : Class;
  getId : string;
  name : string;
  value : string;
  expensive : bool;
  hasChildren : bool;
  getChildren : list TreeElement
}.

(** The input of the tree, [IStackFrame]. *)
Record IStackFrame := mkStackFrame {
  sf_getId : string;
  getScopes : list TreeElement
}.

(** [IStackFrame | IExpression | IScope], the argument of the data source;
    [null] is [None]. *)
Inductive DataSourceElement :=
| OfStackFrame (f : IStackFrame)
| OfElement (e : TreeElement).

Definition isStackFrame (obj : DataSourceElement) : bool :=
  match obj with
  | OfStackFrame _ => true
  | OfElement _ => false
  end.

(** The request that a call of the data source sends to the debug model. *)
Inductive ModelRequest :=
| CallGetScopes (frameId : string)
| CallGetChildren (elementId : string).

(** ** [VariablesDataSource] (lines 322-342) *)
Module VariablesDataSource.

Definition hasChildren (element : option DataSourceElement) : bool :=
  match element with
  | None => false
  | Some (OfStackFrame _) => true
  | Some (OfElement e) => hasChildren e
  end.

(** The promise of [doGetChildren]: the request made and its result. *)
Definition doGetChildren (element : DataSourceElement)
  : list ModelRequest * list TreeElement :=
  match element with
  | OfStackFrame f => ([CallGetScopes (sf_getId f)], getScopes f)
  | OfElement e => ([CallGetChildren (getId e)], getChildren e)
  end.

End VariablesDataSource.

(** ** The renderer ids (lines 374, 402, 424, 522) *)
Module ScopesRenderer.
Definition ID : string := "scope".
End ScopesRenderer.

Module ScopeErrorRenderer.
Definition ID : string := "scopeError".
End ScopeErrorRenderer.

Module VisualizedVariableRenderer.
Definition ID : string := "viz".
End VisualizedVariableRenderer.

Module VariablesRenderer.
Definition ID : string := "variable".
End VariablesRenderer.

(** ** [VariablesDelegate] (lines 349-370) *)
Module VariablesDelegate.

Definition getHeight (element : TreeElement) : nat := 22.

Definition getTemplateId (element : TreeElement) : string :=
  if instanceof (cls element) C_ErrorScope then ScopeErrorRenderer.ID
  else if instanceof (cls element) C_Scope then ScopesRenderer.ID
  else if instanceof (cls element) C_VisualizedExpression
  then VisualizedVariableRenderer.ID
  else VariablesRenderer.ID.

End VariablesDelegate.

(** ** The tree widget *)

(** Modelled from the spec: the view state of the tree
    ([IAsyncDataTreeViewState], from [vs/base/browser/ui/tree], which is not
    part of this file): what is expanded, and the scroll position. *)
Record IAsyncDataTreeViewState := mkViewState {
  vs_expanded : gset string;
  vs_scrollTop : nat
}.

(** The calls of the view that change the tree. *)
Inductive TreeCall :=
| SetInput (input : option IStackFrame)
    (viewState : option IAsyncDataTreeViewState)
| Expand (id : string)
| UpdateOptions (optionsUpdate : gmap string bool)
| Rerender (id : string).

(** Modelled from the spec: the tree widget ([WorkbenchAsyncDataTree], from
    [vs/platform/list] and [vs/base/browser/ui/tree]) is an external
    collaborator that is not part of this file.  The model keeps what the
    view reads back from it (its input, the ids of the elements it holds,
    which of them are expanded, its options) and the list of the calls that
    changed it. *)
Record Tree := mkTree {
  input : option IStackFrame;
  nodes : gset string;
  expandedNodes : gset string;
  scrollTop : nat;
  options : gmap string bool;
  calls : list TreeCall
}.

(** Modelled from the spec: the methods of the tree widget that the view
    calls.  Elements are told apart by their id, as the identity provider
    that [renderBody] gives to the tree does. *)
Module WorkbenchAsyncDataTree.

Definition create (opts : gmap string bool) : Tree :=
  mkTree None ∅ ∅ 0 opts [].

Definition getInput (t : Tree) : option IStackFrame := input t.

Definition getViewState (t : Tree) : IAsyncDataTreeViewState :=
  mkViewState (expandedNodes t) (scrollTop t).

(** [loaded] are the elements that the tree has obtained from its data
    source by the time the promise of [setInput] resolves.  Without a view
    state the model starts from a tree with nothing expanded, scrolled to
    the top; that is a choice of the model. *)
Definition setInput (i : option IStackFrame)
  (viewState : option IAsyncDataTreeViewState) (loaded : list TreeElement)
  (t : Tree) : Tree :=
  mkTree i
    (list_to_set (getId <$> loaded))
    (from_option vs_expanded ∅ viewState)
    (from_option vs_scrollTop 0 viewState)
    (options t)
    (calls t ++ [SetInput i viewState]).

Definition hasNode (element : TreeElement) (t : Tree) : bool :=
  bool_decide (getId element ∈ nodes t).

Definition expand (element : TreeElement) (t : Tree) : Tree :=
  mkTree (input t) (nodes t)
    (if hasNode element t then {[getId element]} ∪ expandedNodes t
     else expandedNodes t)
    (scrollTop t) (options t)
    (calls t ++ [Expand (getId element)]).

(** [updateOptions] merges the given options into the current ones. *)
Definition updateOptions (optionsUpdate : gmap string bool) (t : Tree) : Tree :=
  mkTree (input t) (nodes t) (expandedNodes t) (scrollTop t)
    (optionsUpdate ∪ options t)
    (calls t ++ [UpdateOptions optionsUpdate]).

Definition rerender (element : TreeElement) (t : Tree) : Tree :=
  mkTree (input t) (nodes t) (expandedNodes t) (scrollTop t) (options t)
    (calls t ++ [Rerender (getId element)]).

End WorkbenchAsyncDataTree.

(** ** Timers of the host and [RunOnceScheduler] *)

(** [setTimeout] and [clearTimeout] of the host: a table of pending timers,
    each with its token and the milliseconds left.  Setting a timer never
    removes another one. *)
Record Timers := mkTimers {
  nextToken : nat;
  table : list (nat * nat)
}.

Definition setTimeout (delay : nat) (h : Timers) : nat * Timers :=
  (nextToken h, mkTimers (S (nextToken h)) (table h ++ [(nextToken h, delay)])).

Definition clearTimeout (token : nat) (h : Timers) : Timers :=
  mkTimers (nextToken h) (filter (λ t, t.1 ≠ token) (table h)).

(** Modelled from the spec: [RunOnceScheduler] ([vs/base/common/async]) is
    not part of this file.  The spec describes it as a single-shot delayed
    task that is rescheduled, not stacked, on each new event: the scheduler
    knows its default delay, the token of its pending timer if it has one,
    and its runner, which it drops when it is disposed. *)
Record RunOnceScheduler := mkScheduler {
  timeout : nat;
  timeoutToken : option nat;
  hasRunner : bool
}.

(** ** The state of the view *)

(** What [renderBody] hands to [this._register], and the scheduler, which is
    an [IDisposable] too. *)
Inductive Disposable :=
| D_rendererOnVisualizationRange
| D_onDidFocusStackFrame
| D_onWillUpdateViews
| D_tree
| D_onMouseDblClick
| D_onContextMenu
| D_onDidChangeBodyVisibility
| D_onDidSelectExpression
| D_onDidEvaluateLazyExpression
| D_onDidEndSession
| D_updateTreeScheduler.

#[global] Instance Disposable_eq_dec : EqDecision Disposable.
Proof. solve_decision. Defined.

Record State := mkState {
  (* fields of VariablesView *)
  updateTreeScheduler : RunOnceScheduler;
  needsRefresh : bool;
  tree : Tree;
  savedViewState : gmap string IAsyncDataTreeViewState;
  autoExpandedScopes : gset string;
  (* the local variable of renderBody that the selection listener captures *)
  horizontalScrolling : option bool;
  (* ViewPane: isBodyVisible(), the store of _register, the live listeners *)
  bodyVisible : bool;
  store : list Disposable;
  listening : list Disposable;
  treeDisposed : bool;
  (* the host's timers, and how often the runner of the scheduler started *)
  timers : Timers;
  runs : nat
}.

(** Field updates. *)
Definition with_updateTreeScheduler (x : RunOnceScheduler) (s : State) : State :=
  mkState x (needsRefresh s) (tree s) (savedViewState s)
    (autoExpandedScopes s) (horizontalScrolling s) (bodyVisible s) (store s)
    (listening s) (treeDisposed s) (timers s) (runs s).

Definition with_needsRefresh (x : bool) (s : State) : State :=
  mkState (updateTreeScheduler s) x (tree s) (savedViewState s)
    (autoExpandedScopes s) (horizontalScrolling s) (bodyVisible s) (store s)
    (listening s) (treeDisposed s) (timers s) (runs s).

Definition with_tree (x : Tree) (s : State) : State :=
  mkState (updateTreeScheduler s) (needsRefresh s) x (savedViewState s)
    (autoExpandedScopes s) (horizontalScrolling s) (bodyVisible s) (store s)
    (listening s) (treeDisposed s) (timers s) (runs s).

Definition with_savedViewState (x : gmap string IAsyncDataTreeViewState)
  (s : State) : State :=
  mkState (updateTreeScheduler s) (needsRefresh s) (tree s) x
    (autoExpandedScopes s) (horizontalScrolling s) (bodyVisible s) (store s)
    (listening s) (treeDisposed s) (timers s) (runs s).

Definition with_autoExpandedScopes (x : gset string) (s : State) : State :=
  mkState (updateTreeScheduler s) (needsRefresh s) (tree s) (savedViewState s)
    x (horizontalScrolling s) (bodyVisible s) (store s)
    (listening s) (treeDisposed s) (timers s) (runs s).

Definition with_horizontalScrolling (x : option bool) (s : State) : State :=
  mkState (updateTreeScheduler s) (needsRefresh s) (tree s) (savedViewState s)
    (autoExpandedScopes s) x (bodyVisible s) (store s)
    (listening s) (treeDisposed s) (timers s) (runs s).

Definition with_bodyVisible (x : bool) (s : State) : State :=
  mkState (updateTreeScheduler s) (needsRefresh s) (tree s) (savedViewState s)
    (autoExpandedScopes s) (horizontalScrolling s) x (store s)
    (listening s) (treeDisposed s) (timers s) (runs s).

Definition with_store (x : list Disposable) (s : State) : State :=
  mkState (updateTreeScheduler s) (needsRefresh s) (tree s) (savedViewState s)
    (autoExpandedScopes s) (horizontalScrolling s) (bodyVisible s) x
    (listening s) (treeDisposed s) (timers s) (runs s).

Definition with_listening (x : list Disposable) (s : State) : State :=
  mkState (updateTreeScheduler s) (needsRefresh s) (tree s) (savedViewState s)
    (autoExpandedScopes s) (horizontalScrolling s) (bodyVisible s) (store s)
    x (treeDisposed s) (timers s) (runs s).

Definition with_treeDisposed (x : bool) (s : State) : State :=
  mkState (updateTreeScheduler s) (needsRefresh s) (tree s) (savedViewState s)
    (autoExpandedScopes s) (horizontalScrolling s) (bodyVisible s) (store s)
    (listening s) x (timers s) (runs s).

Definition with_timers (x : Timers) (s : State) : State :=
  mkState (updateTreeScheduler s) (needsRefresh s) (tree s) (savedViewState s)
    (autoExpandedScopes s) (horizontalScrolling s) (bodyVisible s) (store s)
    (listening s) (treeDisposed s) x (runs s).

Definition with_runs (x : nat) (s : State) : State :=
  mkState (updateTreeScheduler s) (needsRefresh s) (tree s) (savedViewState s)
    (autoExpandedScopes s) (horizontalScrolling s) (bodyVisible s) (store s)
    (listening s) (treeDisposed s) (timers s) x.

(** The code of the view runs in a state monad over [State]. *)
Definition M (A : Type) : Type := State → A * State.

#[global] Instance M_ret : MRet M := λ A a s, (a, s).
#[global] Instance M_bind : MBind M :=
  λ A B k m s, let '(a, s') := m s in k a s'.

Definition gets {A} (f : State → A) : M A := λ s, (f s, s).
Definition modify (f : State → State) : M unit := λ s, (tt, f s).
Definition exec {A} (m : M A) (s : State) : State := (m s).2.
Definition skip : M unit := mret tt.

Fixpoint forEach {A} (l : list A) (f : A → M unit) : M unit :=
  match l with
  | [] => skip
  | a :: l' => f a ;; forEach l' f
  end.

(** The methods of [this.tree] inside the monad. *)
Definition tree_getInput : M (option IStackFrame) :=
  gets (λ s, WorkbenchAsyncDataTree.getInput (tree s)).

Definition tree_getViewState : M IAsyncDataTreeViewState :=
  gets (λ s, WorkbenchAsyncDataTree.getViewState (tree s)).

Definition tree_setInput (i : option IStackFrame)
  (viewState : option IAsyncDataTreeViewState) (loaded : list TreeElement)
  : M unit :=
  modify (λ s, with_tree (WorkbenchAsyncDataTree.setInput i viewState loaded (tree s)) s).

Definition tree_hasNode (element : TreeElement) : M bool :=
  gets (λ s, WorkbenchAsyncDataTree.hasNode element (tree s)).

Definition tree_expand (element : TreeElement) : M unit :=
  modify (λ s, with_tree (WorkbenchAsyncDataTree.expand element (tree s)) s).

Definition tree_updateOptions (optionsUpdate : gmap string bool) : M unit :=
  modify (λ s, with_tree (WorkbenchAsyncDataTree.updateOptions optionsUpdate (tree s)) s).

Definition tree_rerender (element : TreeElement) : M unit :=
  modify (λ s, with_tree (WorkbenchAsyncDataTree.rerender element (tree s)) s).

(** Modelled from the spec: the methods of [this.updateTreeScheduler]
    inside the monad, for the [RunOnceScheduler] that is not part of this
    file.  [schedule] cancels the pending timer before it sets a new one,
    with the delay of the constructor when none is given; [dispose] cancels
    and drops the runner. *)
Module Scheduler.

Definition create (delay : nat) : RunOnceScheduler := mkScheduler delay None true.

Definition isScheduled : M bool :=
  gets (λ s, bool_decide (is_Some (timeoutToken (updateTreeScheduler s)))).

Definition setToken (token : option nat) : M unit :=
  modify (λ s, with_updateTreeScheduler
                 (mkScheduler (timeout (updateTreeScheduler s)) token
                    (hasRunner (updateTreeScheduler s))) s).

Definition cancel : M unit :=
  token ← gets (λ s, timeoutToken (updateTreeScheduler s));
  match token with
  | Some tok =>
      modify (λ s, with_timers (clearTimeout tok (timers s)) s) ;;
      setToken None
  | None => skip
  end.

Definition schedule (delay : option nat) : M unit :=
  cancel ;;
  default ← gets (λ s, timeout (updateTreeScheduler s));
  token ← (λ s, let '(tok, h) := setTimeout (from_option id default delay) (timers s)
                in (tok, with_timers h s));
  setToken (Some token).

Definition dispose : M unit :=
  cancel ;;
  modify (λ s, with_updateTreeScheduler
                 (mkScheduler (timeout (updateTreeScheduler s))
                    (timeoutToken (updateTreeScheduler s)) false) s).

End Scheduler.

(** ** [VariablesView] (lines 64-241) *)

(** What the debug service answers while the runner of the scheduler
    executes: the frame that [getViewModel().focusedStackFrame] returns, and
    the elements that the tree retrieves through its data source during
    [setInput].  Without a concurrent update, [loaded] holds the scopes of
    the focused frame. *)
Record Env := mkEnv {
  focusedStackFrame : option IStackFrame;
  loaded : list TreeElement
}.

(** The payload of [onDidFocusStackFrame]. *)
Record FocusEvent := mkFocusEvent {
  stackFrame : option IStackFrame;
  explicit : bool
}.

(** The payload of [onDidSelectExpression], when it is not [undefined]. *)
Record SelectEvent := mkSelectEvent {
  expression : TreeElement;
  settingWatch : bool
}.

Module VariablesView.

(** [scopes.find(s => !s.expensive)] *)
Definition findToExpand (scopes : list TreeElement) : option TreeElement :=
  snd <$> list_find (λ s, expensive s = false) scopes.

(** The runner given to the scheduler (lines 90-116).  Its awaits run to
    completion, with no other event in between; what the tree loads during
    [setInput] comes from [env], apart from the scopes that
    [stackFrame.getScopes()] returns afterwards. *)
Definition updateTree (env : Env) : M unit :=
  let stackFrame := focusedStackFrame env in
  modify (with_needsRefresh false) ;;
  input ← tree_getInput;
  match input with
  | Some input =>
      viewState ← tree_getViewState;
      modify (λ s, with_savedViewState
                     (<[sf_getId input := viewState]> (savedViewState s)) s)
  | None => skip
  end ;;
  match stackFrame with
  | None => tree_setInput None None []
  | Some stackFrame =>
      viewState ← gets (λ s, savedViewState s !! sf_getId stackFrame);
      tree_setInput (Some stackFrame) viewState (loaded env) ;;
      let scopes := getScopes stackFrame in
      let toExpand := findToExpand scopes in
      match toExpand with
      | Some toExpand =>
          present ← tree_hasNode toExpand;
          if present : bool then
            (modify (λ s, with_autoExpandedScopes
                            ({[getId toExpand]} ∪ autoExpandedScopes s) s) ;;
             tree_expand toExpand)
          else skip
      | None => skip
      end
  end.

(** The constructor (lines 72-117): the scheduler is created with a delay of
    400 ms and is not handed to [_register]. *)
Definition constructor : State :=
  mkState (Scheduler.create 400) false (WorkbenchAsyncDataTree.create ∅) ∅ ∅
    None false [] [] false (mkTimers 0 []) 0.

Definition _register (d : Disposable) : M unit :=
  modify (λ s, with_store (store s ++ [d]) s).

(** Subscribes a listener and registers its disposable. *)
Definition listen (d : Disposable) : M unit :=
  modify (λ s, with_listening (listening s ++ [d]) s) ;;
  _register d.

(** [renderBody] (lines 119-198).  [treeOptions] are the options the
    workbench tree starts with; [focused] and [scopes] are the focused frame
    and what the tree loads for it. *)
Definition renderBody (treeOptions : gmap string bool)
  (focused : option IStackFrame) (scopes : list TreeElement) : M unit :=
  modify (with_tree (WorkbenchAsyncDataTree.create treeOptions)) ;;
  listen D_rendererOnVisualizationRange ;;
  tree_setInput focused None scopes ;;
  listen D_onDidFocusStackFrame ;;
  listen D_onWillUpdateViews ;;
  _register D_tree ;;
  listen D_onMouseDblClick ;;
  listen D_onContextMenu ;;
  listen D_onDidChangeBodyVisibility ;;
  modify (with_horizontalScrolling None) ;;
  listen D_onDidSelectExpression ;;
  listen D_onDidEvaluateLazyExpression ;;
  listen D_onDidEndSession.

(** The listener of [onDidFocusStackFrame] (lines 145-155). *)
Definition onDidFocusStackFrame (sf : FocusEvent) : M unit :=
  visible ← gets bodyVisible;
  if negb visible then modify (with_needsRefresh true)
  else
    let timeout := if explicit sf then Some 0 else None in
    Scheduler.schedule timeout.

(** The listener of [onDidChangeBodyVisibility] (lines 168-172). *)
Definition onDidChangeBodyVisibility (visible : bool) : M unit :=
  flag ← gets needsRefresh;
  if visible && flag then Scheduler.schedule None else skip.

(** The listener of [onDidSelectExpression] (lines 173-187). *)
Definition onDidSelectExpression (e : option SelectEvent) : M unit :=
  let variable := expression <$> e in
  present ← match variable return M bool with
            | Some variable => tree_hasNode variable
            | None => mret false
            end;
  match variable, present with
  | Some variable, true =>
      current ← gets (λ s, options (tree s) !! "horizontalScrolling");
      modify (with_horizontalScrolling current) ;;
      (if from_option id false current
       then tree_updateOptions {["horizontalScrolling" := false]}
       else skip) ;;
      tree_rerender variable
  | _, _ =>
      remembered ← gets horizontalScrolling;
      match e, remembered with
      | None, Some value =>
          tree_updateOptions {["horizontalScrolling" := value]} ;;
          modify (with_horizontalScrolling None)
      | _, _ => skip
      end
  end.

(** The listener of [onDidEndSession] (lines 194-197). *)
Definition onDidEndSession : M unit :=
  modify (with_savedViewState ∅) ;;
  modify (with_autoExpandedScopes ∅).

(** Modelled from the spec: disposing one registered disposable, whose
    classes are not part of this file: a listener stops listening, the tree
    is disposed, a scheduler cancels its timer and drops its runner. *)
Definition disposeOne (d : Disposable) : M unit :=
  match d with
  | D_tree => modify (with_treeDisposed true)
  | D_updateTreeScheduler => Scheduler.dispose
  | _ => modify (λ s, with_listening (filter (λ x, x ≠ d) (listening s)) s)
  end.

(** Modelled from the spec: [dispose] is inherited from [ViewPane], which is
    not part of this file.  The view hands its disposables to [_register]
    so that they go when the view goes: [dispose] disposes exactly what the
    store holds, in the order of registration. *)
Definition dispose : M unit :=
  registered ← gets store;
  forEach registered disposeOne ;;
  modify (with_store []).

End VariablesView.

(** ** The host: events and time *)

(** Modelled from the spec: the handler of the scheduler's timer, for the
    same absent [RunOnceScheduler]: the token is reset, then the runner is
    called if the scheduler still has one. *)
Definition onTimeout (env : Env) : M unit :=
  Scheduler.setToken None ;;
  alive ← gets (λ s, hasRunner (updateTreeScheduler s));
  if alive : bool then
    (modify (λ s, with_runs (S (runs s)) s) ;;
     VariablesView.updateTree env)
  else skip.

(** The host lets [ms] milliseconds pass: the timers that are due fire, in
    the order in which they were set, and the others have [ms] less to
    wait. *)
Definition elapse (ms : nat) (env : Env) : M unit :=
  pending ← gets (λ s, table (timers s));
  let due := filter (λ t, t.2 ≤ ms) pending in
  let later := (λ t, (t.1, t.2 - ms)) <$> filter (λ t, ms < t.2) pending in
  modify (λ s, with_timers (mkTimers (nextToken (timers s)) later) s) ;;
  forEach due (λ _, onTimeout env).

(** What can happen to the view: the events whose listeners act on the
    scheduler, on the fields of the view or on the options of the tree, the
    passing of time, and the disposal of the view.  The listeners of
    [onWillUpdateViews] and [onDidEvaluateLazyExpression] and the mouse and
    menu listeners of the tree touch none of these (they update and expand
    children of the tree and set the variables of the module) and have no
    event here. *)
Inductive Event :=
| DidFocusStackFrame (sf : FocusEvent)
| DidChangeBodyVisibility (visible : bool)
| DidSelectExpression (e : option SelectEvent)
| DidEndSession
| Elapse (ms : nat) (env : Env)
| Dispose.

(** An event reaches its listener only while the listener is subscribed. *)
Definition whenListening (d : Disposable) (m : M unit) : M unit :=
  live ← gets (λ s, bool_decide (d ∈ listening s));
  if live : bool then m else skip.

(** Modelled from the spec: the emitters of the debug service and
    [ViewPane] are not part of this file.  An event goes to the listener
    that [renderBody] subscribed for it; [ViewPane] has changed its
    visibility by the time it fires [onDidChangeBodyVisibility]. *)
Definition dispatch (ev : Event) : M unit :=
  match ev with
  | DidFocusStackFrame sf =>
      whenListening D_onDidFocusStackFrame (VariablesView.onDidFocusStackFrame sf)
  | DidChangeBodyVisibility visible =>
      modify (with_bodyVisible visible) ;;
      whenListening D_onDidChangeBodyVisibility
        (VariablesView.onDidChangeBodyVisibility visible)
  | DidSelectExpression e =>
      whenListening D_onDidSelectExpression (VariablesView.onDidSelectExpression e)
  | DidEndSession =>
      whenListening D_onDidEndSession VariablesView.onDidEndSession
  | Elapse ms env => elapse ms env
  | Dispose => VariablesView.dispose
  end.

Definition step (ev : Event) (s : State) : State := exec (dispatch ev) s.

Definition run (evs : list Event) (s : State) : State :=
  foldl (λ s ev, step ev s) s evs.

(** ** The tree asking its data source *)

(** Modelled from the spec: the tree widget, which calls the data source, is
    not part of this file.  The spec has the children fetched lazily, on
    demand, scopes then variables then sub-variables: the tree asks for the
    children of its input and, below it, only for those of the elements that
    have children and are expanded.  [requestsBelow] lists the requests that
    reach the debug model for the subtree of an element. *)
Fixpoint requestsBelow (fuel : nat) (expanded : gset string)
  (e : TreeElement) : list ModelRequest :=
  match fuel with
  | 0 => []
  | S fuel' =>
      if VariablesDataSource.hasChildren (Some (OfElement e))
         && bool_decide (getId e ∈ expanded)
      then
        let '(requests, children) :=
          VariablesDataSource.doGetChildren (OfElement e) in
        requests ++ flat_map (requestsBelow fuel' expanded) children
      else []
  end.

(** Modelled from the spec: the requests of one refresh of the whole tree,
    for the same absent tree widget. *)
Definition requestsOfRefresh (fuel : nat) (expanded : gset string)
  (i : option IStackFrame) : list ModelRequest :=
  if VariablesDataSource.hasChildren (OfStackFrame <$> i) then
    match i with
    | Some f =>
        let '(requests, scopes) :=
          VariablesDataSource.doGetChildren (OfStackFrame f) in
        requests ++ flat_map (requestsBelow fuel expanded) scopes
    | None => []
    end
  else [].

(** ** The data breakpoint commands (lines 53-56, 243-316, 769-800) *)

Inductive DataBreakpointAccessType :=
| AccessRead
| AccessWrite
| AccessReadWrite.

(** [IDataBreakpointInfoResponse]: [dataId] may be [null], [canPersist] and
    [accessTypes] may be absent. *)
Record IDataBreakpointInfoResponse := mkInfoResponse {
  dataId : option string;
  description : string;
  canPersist : option bool;
  accessTypes : option (list DataBreakpointAccessType)
}.

Inductive DataBreakpointSetType :=
| SetType_Variable
| SetType_Address.

Record DataBreakpointSource := mkSource {
  src_type : DataBreakpointSetType;
  src_dataId : option string
}.

(** The argument of [debugService.addDataBreakpoint]. *)
Record DataBreakpointOptions := mkDataBreakpoint {
  bp_description : string;
  bp_src : DataBreakpointSource;
  bp_canPersist : bool;
  bp_accessTypes : option (list DataBreakpointAccessType);
  bp_accessType : DataBreakpointAccessType
}.

(** The three variables of the module (lines 53-56). *)
Record Globals := mkGlobals {
  forgetScopes : bool;
  variableInternalContext : option TreeElement;
  dataBreakpointInfoResponse : option IDataBreakpointInfoResponse
}.

Definition initialGlobals : Globals := mkGlobals true None None.

(** How the promise of [session.dataBreakpointInfo] settles: it is rejected,
    or it resolves to a response or to [undefined]. *)
Inductive InfoOutcome :=
| InfoRejected
| InfoResolved (response : option IDataBreakpointInfoResponse).

(** The session of a variable: its capability and its answer to
    [dataBreakpointInfo(name, parentReference)]. *)
Record IDebugSession := mkSession {
  supportsDataBreakpoints : bool;
  dataBreakpointInfo : string → option nat → InfoOutcome
}.

Inductive ContextKey :=
| CONTEXT_BREAK_WHEN_VALUE_CHANGES_SUPPORTED
| CONTEXT_BREAK_WHEN_VALUE_IS_ACCESSED_SUPPORTED
| CONTEXT_BREAK_WHEN_VALUE_IS_READ_SUPPORTED.

(** [!!x] for a string that may be [null]. *)
Definition truthy (x : option string) : bool :=
  match x with
  | Some str => negb (String.eqb str "")
  | None => false
  end.

(** [getContextForVariableMenuBase] (lines 313-316): the result is the
    additional context. *)
Definition getContextForVariableMenuBase (variable : TreeElement)
  (additionalContext : list (ContextKey * bool)) (g : Globals)
  : list (ContextKey * bool) * Globals :=
  (additionalContext,
   mkGlobals (forgetScopes g) (Some variable) (dataBreakpointInfoResponse g)).

(** A function of the module that returns. *)
Definition returns {A} (result : A * Globals) : option A * Globals :=
  (Some result.1, result.2).

(** [getContextForVariableMenuWithDataAccess] (lines 278-308); [session] is
    [variable.getSession()] and [parentReference] is
    [variable.parent.reference].  The result is [None] when the function
    throws: the [await] of line 285 is rejected, before
    [dataBreakpointInfoResponse] is assigned and before
    [getContextForVariableMenuBase] is reached. *)
Definition getContextForVariableMenuWithDataAccess (variable : TreeElement)
  (session : option IDebugSession) (parentReference : option nat)
  (g : Globals) : option (list (ContextKey * bool)) * Globals :=
  match session with
  | None => returns (getContextForVariableMenuBase variable [] g)
  | Some session =>
      if negb (supportsDataBreakpoints session)
      then returns (getContextForVariableMenuBase variable [] g)
      else
        match dataBreakpointInfo session (name variable) parentReference with
        | InfoRejected => (None, g)
        | InfoResolved response =>
            let g := mkGlobals (forgetScopes g) (variableInternalContext g) response in
            let dataBreakpointId := response ≫= dataId in
            let dataBreakpointAccessTypes := response ≫= accessTypes in
            let contextKeys :=
              match dataBreakpointAccessTypes with
              | None =>
                  [(CONTEXT_BREAK_WHEN_VALUE_CHANGES_SUPPORTED,
                    truthy dataBreakpointId)]
              | Some types =>
                  (λ accessType,
                     match accessType with
                     | AccessRead =>
                         (CONTEXT_BREAK_WHEN_VALUE_IS_READ_SUPPORTED,
                          truthy dataBreakpointId)
                     | AccessWrite =>
                         (CONTEXT_BREAK_WHEN_VALUE_CHANGES_SUPPORTED,
                          truthy dataBreakpointId)
                     | AccessReadWrite =>
                         (CONTEXT_BREAK_WHEN_VALUE_IS_ACCESSED_SUPPORTED,
                          truthy dataBreakpointId)
                     end) <$> types
              end in
            returns (getContextForVariableMenuBase variable contextKeys g)
        end
  end.

(** [openContextMenuForVariableTreeElement] (lines 243-265), as far as the
    variables of the module go: the [try] has a [finally] and no [catch],
    so that a rejected request leaves them as they are. *)
Definition openContextMenuForVariableTreeElement (element : option TreeElement)
  (session : option IDebugSession) (parentReference : option nat)
  (g : Globals) : Globals :=
  match element with
  | None => g
  | Some variable =>
      if negb (instanceof (cls variable) C_Variable)
         || String.eqb (value variable) ""
      then g
      else (getContextForVariableMenuWithDataAccess variable session
              parentReference g).2
  end.

(** One opening of a context menu of the tree: the element, its session and
    the reference of its parent. *)
Record MenuOpening := mkMenuOpening {
  opened : option TreeElement;
  openedSession : option IDebugSession;
  openedParentReference : option nat
}.

Definition openMenu (o : MenuOpening) (g : Globals) : Globals :=
  openContextMenuForVariableTreeElement (opened o) (openedSession o)
    (openedParentReference o) g.

(** The menus of a history are opened one after the other. *)
Definition openMenus (history : list MenuOpening) (g : Globals) : Globals :=
  foldl (λ g o, openMenu o g) g history.

Definition BREAK_WHEN_VALUE_CHANGES_ID : string := "debug.breakWhenValueChanges".
Definition BREAK_WHEN_VALUE_IS_ACCESSED_ID : string := "debug.breakWhenValueIsAccessed".
Definition BREAK_WHEN_VALUE_IS_READ_ID : string := "debug.breakWhenValueIsRead".

(** The handlers (lines 772-777, 783-788, 794-799): the result lists the
    calls of [debugService.addDataBreakpoint]. *)
Definition breakWhenValueChanges (g : Globals) : list DataBreakpointOptions :=
  match dataBreakpointInfoResponse g with
  | Some response =>
      [mkDataBreakpoint (description response)
         (mkSource SetType_Variable (dataId response))
         (from_option id false (canPersist response))
         (accessTypes response) AccessWrite]
  | None => []
  end.

Definition breakWhenValueIsAccessed (g : Globals) : list DataBreakpointOptions :=
  match dataBreakpointInfoResponse g with
  | Some response =>
      [mkDataBreakpoint (description response)
         (mkSource SetType_Variable (dataId response))
         (from_option id false (canPersist response))
         (accessTypes response) AccessReadWrite]
  | None => []
  end.

Definition breakWhenValueIsRead (g : Globals) : list DataBreakpointOptions :=
  match dataBreakpointInfoResponse g with
  | Some response =>
      [mkDataBreakpoint (description response)
         (mkSource SetType_Variable (dataId response))
         (from_option id false (canPersist response))
         (accessTypes response) AccessRead]
  | None => []
  end.

(** The data breakpoint commands as [CommandsRegistry.registerCommand]
    receives them. *)
Definition CommandsRegistry
  : list (string * (Globals → list DataBreakpointOptions)) :=
  [(BREAK_WHEN_VALUE_CHANGES_ID, breakWhenValueChanges);
   (BREAK_WHEN_VALUE_IS_ACCESSED_ID, breakWhenValueIsAccessed);
   (BREAK_WHEN_VALUE_IS_READ_ID, breakWhenValueIsRead)].

Definition executeCommand (id : string) (g : Globals)
  : option (list DataBreakpointOptions) :=
  (λ entry, entry.2 g) <$> (snd <$> list_find (λ entry, entry.1 = id) CommandsRegistry).

(** * Notions for the statements *)

(** ** The scheduler and its timer *)

(** The scheduler of the view as the constructor made it, with a timer table
    that holds its pending timer and nothing else. *)
Definition wf (s : State) : bool :=
  bool_decide (timeout (updateTreeScheduler s) = 400)
  && hasRunner (updateTreeScheduler s)
  && match timeoutToken (updateTreeScheduler s), table (timers s) with
     | None, [] => true
     | Some tok, [(t, _)] => bool_decide (t = tok)
     | _, _ => false
     end.

(** The state after [schedule(delay)]. *)
Definition scheduled (delay : nat) (s : State) : State :=
  with_updateTreeScheduler
    (mkScheduler 400 (Some (nextToken (timers s))) true)
    (with_timers
       (mkTimers (S (nextToken (timers s))) [(nextToken (timers s), delay)]) s).

(** The state after the timer of the scheduler has fired. *)
Definition fired (env : Env) (s : State) : State :=
  exec (VariablesView.updateTree env)
    (with_runs (S (runs s))
       (with_updateTreeScheduler (mkScheduler 400 None true)
          (with_timers (mkTimers (nextToken (timers s)) []) s))).

(** The view is rendered and visible, and it listens to focus changes. *)
Definition Ready (s : State) : Prop :=
  wf s = true ∧ bodyVisible s = true ∧ D_onDidFocusStackFrame ∈ listening s.

Definition isFocus (ev : Event) : bool :=
  match ev with DidFocusStackFrame _ => true | _ => false end.

Definition isFocusOrElapse (ev : Event) : bool :=
  match ev with DidFocusStackFrame _ | Elapse _ _ => true | _ => false end.

(** ** States that the view can reach *)

(** The view once [renderBody] has run. *)
Definition rendered (treeOptions : gmap string bool)
  (focused : option IStackFrame) (scopes : list TreeElement) : State :=
  exec (VariablesView.renderBody treeOptions focused scopes)
    VariablesView.constructor.

Definition Reachable (s : State) : Prop :=
  ∃ treeOptions focused scopes evs,
    s = run evs (rendered treeOptions focused scopes).

(** Two states with the same scheduler, timers and store. *)
Definition sameScheduling (s s' : State) : Prop :=
  updateTreeScheduler s' = updateTreeScheduler s
  ∧ timers s' = timers s
  ∧ store s' = store s
  ∧ runs s' = runs s.

(** What every reachable state satisfies. *)
Definition Inv (s : State) : Prop :=
  wf s = true ∧ D_updateTreeScheduler ∉ store s.

(** The cache after the runner has saved the view state of the input. *)
Definition savedAfter (s : State) : gmap string IAsyncDataTreeViewState :=
  match WorkbenchAsyncDataTree.getInput (tree s) with
  | Some i =>
      <[sf_getId i := WorkbenchAsyncDataTree.getViewState (tree s)]>
        (savedViewState s)
  | None => savedViewState s
  end.

(** The focus change schedules the refresh, the view is disposed before the
    400 ms have passed, and the timer is still in the table. *)
Definition disposedWhilePending : State :=
  run [DidChangeBodyVisibility true;
       DidFocusStackFrame (mkFocusEvent None false);
       Dispose]
    (rendered ∅ None []).

(** ** The response that the commands use *)

(** What an opening of the menu stores in [dataBreakpointInfoResponse]: the
    answer of the session, a response or [undefined], when the element is a
    variable with a value, its session has data breakpoints and the request
    returns; nothing otherwise. *)
Definition storedByOpening (o : MenuOpening)
  : option (option IDataBreakpointInfoResponse) :=
  match opened o, openedSession o with
  | Some variable, Some session =>
      if instanceof (cls variable) C_Variable
         && negb (String.eqb (value variable) "")
         && supportsDataBreakpoints session
      then
        match dataBreakpointInfo session (name variable)
                (openedParentReference o) with
        | InfoResolved response => Some response
        | InfoRejected => None
        end
      else None
  | _, _ => None
  end.

(** The response held after a history of openings: what the last opening
    that stored something has stored, and else what was held before. *)
Definition heldAfter (before : option IDataBreakpointInfoResponse)
  (history : list MenuOpening) : option IDataBreakpointInfoResponse :=
  from_option id before (last (omap storedByOpening history)).

(** The data breakpoint that a command builds from a response. *)
Definition builtFrom (response : IDataBreakpointInfoResponse)
  (accessType : DataBreakpointAccessType) : DataBreakpointOptions :=
  mkDataBreakpoint (description response)
    (mkSource SetType_Variable (dataId response))
    (match canPersist response with Some b => b | None => false end)
    (accessTypes response) accessType.

(** The response captured when the context menu of a variable was last
    opened: the one that the last opening of the history has stored, if it
    has stored one. *)
Definition capturedWhenLastOpened (history : list MenuOpening)
  : option IDataBreakpointInfoResponse :=
  match last history with
  | Some o => from_option id None (storedByOpening o)
  | None => None
  end.

(** The commands follow the last opening: after the history, each command
    adds one data breakpoint built from the response captured when the menu
    was last opened, and none when no response was captured then. *)
Definition commandsFollowLastOpening (history : list MenuOpening) : Prop :=
  let g := openMenus history initialGlobals in
  let expected accessType :=
    match capturedWhenLastOpened history with
    | Some response => Some [builtFrom response accessType]
    | None => Some []
    end in
  executeCommand BREAK_WHEN_VALUE_CHANGES_ID g = expected AccessWrite
  ∧ executeCommand BREAK_WHEN_VALUE_IS_ACCESSED_ID g = expected AccessReadWrite
  ∧ executeCommand BREAK_WHEN_VALUE_IS_READ_ID g = expected AccessRead.

(** ** Sample data *)

Definition scopeGlobals : TreeElement :=
  mkElement C_Scope "scope:1:Globals" "Globals" "" true true [].

Definition variableX : TreeElement :=
  mkElement C_Variable "variable:1:x" "x" "42" false false [].

Definition scopeLocals : TreeElement :=
  mkElement C_Scope "scope:1:Locals" "Locals" "" false true [variableX].

Definition frameMain : IStackFrame :=
  mkStackFrame "frame:1" [scopeGlobals; scopeLocals].

Definition frameHelper : IStackFrame :=
  mkStackFrame "frame:2" [scopeGlobals].

(** The view rendered on [frameMain], still hidden, and then shown. *)
Definition hidden : State :=
  rendered {["horizontalScrolling" := true]} (Some frameMain)
    [scopeGlobals; scopeLocals; variableX].

Definition shown : State := run [DidChangeBodyVisibility true] hidden.

(** Stepping: focus changes with pauses shorter than the delay. *)
Definition stepping : list Event :=
  [DidFocusStackFrame (mkFocusEvent (Some frameMain) false);
   Elapse 100 (mkEnv (Some frameMain) [scopeGlobals; scopeLocals]);
   DidFocusStackFrame (mkFocusEvent (Some frameHelper) false);
   Elapse 399 (mkEnv (Some frameHelper) [scopeGlobals]);
   DidFocusStackFrame (mkFocusEvent (Some frameMain) false)].

Definition sessionWithDataBreakpoints : IDebugSession :=
  mkSession true
    (λ name _, InfoResolved
                 (Some (mkInfoResponse (Some ("data:" +:+ name)) name None
                          (Some [AccessRead; AccessWrite])))).

Definition sessionWithoutDataBreakpoints : IDebugSession :=
  mkSession false (λ _ _, InfoResolved None).

Definition rejectingDataSession : IDebugSession :=
  mkSession true (λ _ _, InfoRejected).

Definition variablePi : TreeElement :=
  mkElement C_Variable "variable:1:pi" "pi" "3" false false [].

(** The menu of [x] on a session with data breakpoints, then the menu of
    [pi] on a session without them. *)
Definition staleHistory : list MenuOpening :=
  [mkMenuOpening (Some variableX) (Some sessionWithDataBreakpoints) (Some 7);
   mkMenuOpening (Some variablePi) (Some sessionWithoutDataBreakpoints) (Some 7)].

(** * The rest of the view and the commands *)

(** ** Members of the expressions that [TreeElement] leaves out *)

(** [DebugProtocol.VariablePresentationHint], as far as it is read. *)
Record PresentationHint := mkPresentationHint {
  hint_attributes : option (list string);
  hint_lazy : option bool
}.

(** The other members of an expression that the file reads:
    [presentationHint], [treeItem.canEdit] and [original] of a
    [VisualizedExpression], [evaluateName] and [memoryReference]. *)
Record ExpressionMembers := mkMembers {
  presentationHint : option PresentationHint;
  treeItem_canEdit : option bool;
  original : option TreeElement;
  evaluateName : option string;
  memoryReference : option string
}.

(** ** Double click and [debug.setVariable] (lines 214-231, 648-655) *)

(** [canSetExpressionValue] (lines 220-231); [membersOf] gives the members
    of an element that [TreeElement] does not carry. *)
Definition canSetExpressionValue (membersOf : TreeElement → ExpressionMembers)
  (focusedSession : option IDebugSession) (e : option TreeElement) : bool :=
  match focusedSession with
  | None => false
  | Some _ =>
      match e with
      | None => false
      | Some e =>
          if instanceof (cls e) C_VisualizedExpression
          then from_option id false (treeItem_canEdit (membersOf e))
          else
            instanceof (cls e) C_Variable
            && negb (from_option
                       (λ hint, from_option
                                  (λ attrs, bool_decide ("readOnly" ∈ attrs))
                                  false (hint_attributes hint))
                       false (presentationHint (membersOf e)))
            && negb (from_option (λ hint, from_option id false (hint_lazy hint))
                       false (presentationHint (membersOf e)))
      end
  end.

(** Modelled from the spec: [setSelectedExpression] of the view model, which
    is not part of this file: it fires [onDidSelectExpression] with the
    expression, or with [undefined] when there is none.  The result is the
    payload. *)
Definition setSelectedExpression (e : option TreeElement) (settingWatch : bool)
  : option SelectEvent :=
  (λ e, mkSelectEvent e settingWatch) <$> e.

(** [onMouseDblClick] (lines 214-218): the events it makes the view model
    fire. *)
Definition onMouseDblClick (membersOf : TreeElement → ExpressionMembers)
  (focusedSession : option IDebugSession) (e : option TreeElement)
  : list (option SelectEvent) :=
  if canSetExpressionValue membersOf focusedSession e
  then [setSelectedExpression e false]
  else [].

(** The handler of [debug.setVariable] (lines 648-655). *)
Definition SET_VARIABLE_ID : string := "debug.setVariable".

Definition setVariableCommand (g : Globals) : list (option SelectEvent) :=
  [setSelectedExpression (variableInternalContext g) false].

(** What [renderActionBar] does to the variables of the module: the row of
    a variable (line 576) and the row of a visualized expression
    (line 501). *)
Definition renderActionBar_variable (variable : TreeElement) (g : Globals)
  : Globals :=
  (getContextForVariableMenuBase variable [] g).2.

Definition renderActionBar_visualized
  (membersOf : TreeElement → ExpressionMembers) (viz : TreeElement)
  (g : Globals) : Globals :=
  match original (membersOf viz) with
  | Some o => (getContextForVariableMenuBase o [] g).2
  | None => g
  end.

(** ** Updating the views after an edit (lines 156-163, 478-497, 550-572) *)

Inductive EditEffect :=
| ClearErrorMessage (id : string)
| SetVariable (id : string) (newValue : string) (frameId : string)
| VisualizerEdit (id : string) (newValue : string)
| ForgetScopes (frameId : string)
| UpdateChildren.

(** The listener of [onWillUpdateViews] (lines 156-163). *)
Definition onWillUpdateViews (focused : option IStackFrame) (g : Globals)
  : list EditEffect * Globals :=
  ((match focused with
    | Some stackFrame =>
        if forgetScopes g then [ForgetScopes (sf_getId stackFrame)] else []
    | None => []
    end) ++ [UpdateChildren],
   mkGlobals true (variableInternalContext g) (dataBreakpointInfoResponse g)).

(** The callback after a successful edit (lines 564-568 and 489-493):
    [forgetScopes = false], then [updateViews()].  [updateViews] belongs to
    the view model, which is not part of this file; it fires
    [onWillUpdateViews], to which the view listens. *)
Definition afterEdit (focused : option IStackFrame) (g : Globals)
  : list EditEffect * Globals :=
  onWillUpdateViews focused
    (mkGlobals false (variableInternalContext g) (dataBreakpointInfoResponse g)).

(** [onFinish] of the input box of a variable (lines 558-570). *)
Definition onFinish_variable (variable : TreeElement)
  (focusedStackFrame : option IStackFrame) (newValue : string) (success : bool)
  (g : Globals) : list EditEffect * Globals :=
  match focusedStackFrame with
  | Some frame =>
      if success && negb (String.eqb (value variable) newValue)
      then
        let '(effects, g') := afterEdit focusedStackFrame g in
        (ClearErrorMessage (getId variable)
           :: SetVariable (getId variable) newValue (sf_getId frame) :: effects,
         g')
      else ([ClearErrorMessage (getId variable)], g)
  | None => ([ClearErrorMessage (getId variable)], g)
  end.

(** [onFinish] of the input box of a visualized expression
    (lines 486-495). *)
Definition onFinish_visualized (viz : TreeElement)
  (focusedStackFrame : option IStackFrame) (newValue : string) (success : bool)
  (g : Globals) : list EditEffect * Globals :=
  if success
  then
    let '(effects, g') := afterEdit focusedStackFrame g in
    (ClearErrorMessage (getId viz) :: VisualizerEdit (getId viz) newValue
       :: effects, g')
  else ([ClearErrorMessage (getId viz)], g).

(** ** [VariablesAccessibilityProvider] (lines 630-646) *)

(** [getAriaLabel] (lines 636-645), with the default messages of
    [localize]: the name for [{0}], the value for [{1}]. *)
Definition getAriaLabel (element : TreeElement) : option string :=
  if instanceof (cls element) C_Scope
  then Some ("Scope " +:+ name element)
  else if instanceof (cls element) C_Variable
  then Some (name element +:+ ", value " +:+ value element)
  else None.

(** ** Copying a value (lines 657-695) *)

(** The argument of a command: a variable or an expression, or the
    [IVariablesContext] of a menu, of which [sessionId] and the
    [evaluateName] and [memoryReference] of its variable are read. *)
Record IVariablesContext := mkVariablesContext {
  sessionId : option string;
  variable_evaluateName : option string;
  variable_memoryReference : option string
}.

Inductive CommandArg :=
| ArgElement (e : TreeElement)
| ArgContext (c : IVariablesContext).

(** How the promise of [session.evaluate] settles. *)
Inductive EvalOutcome :=
| Rejected
| Resolved (result : option string).

(** The focused session for [evaluate]: its capability and its answer to
    [evaluate(expression, frameId, context)]. *)
Record EvalSession := mkEvalSession {
  supportsClipboardContext : bool;
  evaluate : string → nat → string → EvalOutcome
}.

(** [Promise.all]: the values, unless a promise is rejected. *)
Fixpoint promiseAll (outcomes : list EvalOutcome) : option (list (option string)) :=
  match outcomes with
  | [] => Some []
  | Rejected :: _ => None
  | Resolved r :: rest => (r ::.) <$> promiseAll rest
  end.

(** [coalesce]: the values that are defined. *)
Definition coalesce {A} (l : list (option A)) : list A := omap id l.

Definition newline : string := String (Ascii.ascii_of_nat 10) EmptyString.

(** [arg instanceof Variable || arg instanceof Expression] (line 667). *)
Definition isVariableOrExpression (arg : CommandArg) : bool :=
  match arg with
  | ArgElement e => instanceof (cls e) C_Variable || instanceof (cls e) C_Expression
  | ArgContext _ => false
  end.

(** [elementContext] and [elements] (lines 665-673). *)
Definition copyElementContext (arg : CommandArg) : string :=
  if isVariableOrExpression arg then "watch" else "variables".

Definition copyElements (arg : CommandArg) (ctx : option (list TreeElement))
  (g : Globals) : list TreeElement :=
  if isVariableOrExpression arg then from_option id [] ctx
  else match variableInternalContext g with
       | Some v => [v]
       | None => []
       end.

(** [evalContext] (line 681). *)
Definition copyEvalContext (session : EvalSession) (arg : CommandArg) : string :=
  if supportsClipboardContext session then "clipboard"
  else copyElementContext arg.

(** One entry of [toEvaluate] (line 682). *)
Definition expressionToEvaluate (membersOf : TreeElement → ExpressionMembers)
  (element : TreeElement) : string :=
  if instanceof (cls element) C_Variable
  then (if truthy (evaluateName (membersOf element))
        then from_option id "" (evaluateName (membersOf element))
        else value element)
  else name element.

(** The handler of [COPY_VALUE_ID] (lines 662-694); [frameId] is
    [stackFrame.frameId] of the focused frame.  The result is the text
    written to the clipboard, if any. *)
Definition copyValue (membersOf : TreeElement → ExpressionMembers)
  (arg : CommandArg) (ctx : option (list TreeElement)) (g : Globals)
  (frameId : option nat) (session : option EvalSession) : option string :=
  let elements := copyElements arg ctx g in
  match frameId, session with
  | Some frameId, Some session =>
      if bool_decide (length elements = 0) then None
      else
        let evalContext := copyEvalContext session arg in
        let toEvaluate := expressionToEvaluate membersOf <$> elements in
        match promiseAll ((λ expr, evaluate session expr frameId evalContext)
                            <$> toEvaluate) with
        | Some evaluations =>
            let result := coalesce evaluations in
            if bool_decide (length result = 0) then None
            else Some (String.concat newline result)
        | None => Some (String.concat newline (value <$> elements))
        end
  | _, _ => None
  end.

(** ** Viewing memory (lines 697-767) *)

Definition HEX_EDITOR_EXTENSION_ID : string := "ms-vscode.hexeditor".
Definition HEX_EDITOR_EDITOR_ID : string := "hexEditor.hexedit".

(** What the services answer: the id of the focused session, whether the
    hex editor is installed, and whether installing it succeeds. *)
Record MemoryEnv := mkMemoryEnv {
  focusedSessionId : option string;
  hexEditorInstalled : bool;
  installSucceeds : bool
}.

Inductive MemoryEffect :=
| Install (extensionId : string)
| NotifyError
| PublicLog (eventName : string) (ofSession : string)
| OpenEditor (ofSession : string) (reference : string) (editorId : string).

(** [tryInstallHexEditor] (lines 756-767). *)
Definition tryInstallHexEditor (env : MemoryEnv) : list MemoryEffect * bool :=
  if installSucceeds env
  then ([Install HEX_EDITOR_EXTENSION_ID], true)
  else ([Install HEX_EDITOR_EXTENSION_ID; NotifyError], false).

(** The handler of [VIEW_MEMORY_ID] (lines 704-753). *)
Definition viewMemory (membersOf : TreeElement → ExpressionMembers)
  (env : MemoryEnv) (arg : CommandArg) : list MemoryEffect :=
  let target :=
    match arg with
    | ArgContext c =>
        if negb (truthy (sessionId c)) || negb (truthy (variable_memoryReference c))
        then None
        else Some (from_option id "" (sessionId c),
                   from_option id "" (variable_memoryReference c))
    | ArgElement e =>
        if negb (truthy (memoryReference (membersOf e))) then None
        else match focusedSessionId env with
             | None => None
             | Some focused =>
                 Some (focused, from_option id "" (memoryReference (membersOf e)))
             end
    end in
  match target with
  | None => []
  | Some (session, reference) =>
      let '(effects, available) :=
        if hexEditorInstalled env then ([], true) else tryInstallHexEditor env in
      effects ++
        (if available : bool
         then [PublicLog "debug/didViewMemory" session;
               OpenEditor session reference HEX_EDITOR_EDITOR_ID]
         else [])
  end.

(** What the command to view memory is asked for: the reference
    [reference] of the session [session].  For the context of a menu, its
    own session id and the memory reference of its variable, both not
    empty; for an expression, its memory reference, not empty, and the
    focused session. *)
Definition memoryTarget (membersOf : TreeElement → ExpressionMembers)
  (env : MemoryEnv) (arg : CommandArg) (session reference : string) : Prop :=
  match arg with
  | ArgContext c =>
      sessionId c = Some session ∧ session ≠ ""
      ∧ variable_memoryReference c = Some reference ∧ reference ≠ ""
  | ArgElement e =>
      memoryReference (membersOf e) = Some reference ∧ reference ≠ ""
      ∧ focusedSessionId env = Some session
  end.

(** ** More sample data *)

Definition noMembers : ExpressionMembers := mkMembers None None None None None.

Definition variableReadOnly : TreeElement :=
  mkElement C_Variable "variable:1:pi" "pi" "3" false false [].

(** [variableReadOnly] is read-only and has a memory reference; everything
    else has no further members. *)
Definition sampleMembers (e : TreeElement) : ExpressionMembers :=
  if String.eqb (getId e) "variable:1:pi"
  then mkMembers (Some (mkPresentationHint (Some ["readOnly"]) None)) None None
         (Some "pi") (Some "0x1000")
  else noMembers.

Definition rejectingSession : EvalSession :=
  mkEvalSession false (λ _ _ _, Rejected).

(** ** Notions for the further statements *)

(** The scope that the runner expands for [frame], if the tree has loaded
    it: a set with its id, or the empty set. *)
Definition autoExpandTarget (env : Env) (frame : IStackFrame) : gset string :=
  match VariablesView.findToExpand (getScopes frame) with
  | Some e =>
      if bool_decide (getId e ∈ (list_to_set (getId <$> loaded env) : gset string))
      then {[getId e]}
      else ∅
  | None => ∅
  end.

(** What [renderBody] leaves in the store of the view, and the listeners it
    subscribes. *)
Definition registeredByRenderBody : list Disposable :=
  [D_rendererOnVisualizationRange; D_onDidFocusStackFrame; D_onWillUpdateViews;
   D_tree; D_onMouseDblClick; D_onContextMenu; D_onDidChangeBodyVisibility;
   D_onDidSelectExpression; D_onDidEvaluateLazyExpression; D_onDidEndSession].

Definition listenersOfRenderBody : list Disposable :=
  [D_rendererOnVisualizationRange; D_onDidFocusStackFrame; D_onWillUpdateViews;
   D_onMouseDblClick; D_onContextMenu; D_onDidChangeBodyVisibility;
   D_onDidSelectExpression; D_onDidEvaluateLazyExpression; D_onDidEndSession].

(** The view before and after its disposal. *)
Definition Alive (s : State) : Prop :=
  listening s = listenersOfRenderBody ∧ store s = registeredByRenderBody.

Definition Disposed (s : State) : Prop :=
  listening s = [] ∧ store s = [].

(** A visible view that still needs a refresh has one pending. *)
Definition RefreshOwed (s : State) : Prop :=
  bodyVisible s = true → needsRefresh s = true → table (timers s) ≠ [].

Definition isElapse (ev : Event) : bool :=
  match ev with Elapse _ _ => true | _ => false end.

(** A focus change, or the body becoming visible: the events that can
    schedule a refresh. *)
Definition canSchedule (ev : Event) : bool :=
  match ev with
  | DidFocusStackFrame _ | DidChangeBodyVisibility true => true
  | _ => false
  end.

(** The hidden view after a focus change, shown again. *)
Definition owed : State :=
  run [DidFocusStackFrame (mkFocusEvent (Some frameHelper) false);
       DidChangeBodyVisibility true] hidden.

(** The shown view with a refresh pending. *)
Definition pending : State :=
  run [DidFocusStackFrame (mkFocusEvent (Some frameHelper) false)] shown.

Definition sessionWithAccessTypes : IDebugSession :=
  mkSession true
    (λ name _, InfoResolved
                 (Some (mkInfoResponse (Some ("data:" +:+ name)) name (Some true)
                          (Some [AccessRead; AccessReadWrite])))).


(** * Properties *)

Ltac run_monad :=
  unfold exec, gets, modify, skip, mbind, M_bind, mret, M_ret; simpl.

(** ** The template dispatch *)

Lemma instanceof_table (c : Class) :
  instanceof c C_ErrorScope = bool_decide (c = C_ErrorScope) ∧
  instanceof c C_Scope = bool_decide (c = C_ErrorScope ∨ c = C_Scope) ∧
  instanceof c C_VisualizedExpression = bool_decide (c = C_VisualizedExpression).
Proof. by destruct c. Qed.

(** C5: [getTemplateId] is total and answers by the class of the element
    alone: [ScopeErrorRenderer.ID] for an [ErrorScope],
    [ScopesRenderer.ID] for any other [Scope],
    [VisualizedVariableRenderer.ID] for a [VisualizedExpression] and
    [VariablesRenderer.ID] for everything else.  The four ids are pairwise
    different, and since an [ErrorScope] is an instance of [Scope] as well,
    it is the order of the tests that gives it the error template. *)
Theorem getTemplateId_dispatch (element : TreeElement) :
  VariablesDelegate.getTemplateId element =
    match cls element with
    | C_ErrorScope => ScopeErrorRenderer.ID
    | C_Scope => ScopesRenderer.ID
    | C_VisualizedExpression => VisualizedVariableRenderer.ID
    | C_Variable | C_Expression | C_StackFrame => VariablesRenderer.ID
    end
  ∧ NoDup [ScopeErrorRenderer.ID; ScopesRenderer.ID;
           VisualizedVariableRenderer.ID; VariablesRenderer.ID]
  ∧ instanceof C_ErrorScope C_Scope = true
  ∧ instanceof C_Scope C_ErrorScope = false.
Proof.
  split; [by destruct element as [[] ? ? ? ? ? ?]|].
  split; [|done].
  apply (bool_decide_unpack _). by vm_compute.
Qed.

(** ** The data source *)

Lemma requestsBelow_expanded (fuel : nat) (expanded : gset string)
  (e : TreeElement) (r : ModelRequest) :
  r ∈ requestsBelow fuel expanded e →
  ∃ x, r = CallGetChildren x ∧ x ∈ expanded.
Proof.
  revert e. induction fuel as [|fuel IH]; intros e; simpl.
  - by intros ?%elem_of_nil.
  - destruct (hasChildren e); simpl; [|by intros ?%elem_of_nil].
    case_bool_decide as Hexp; [|by intros ?%elem_of_nil].
    rewrite elem_of_cons. intros [->|Hr]; [by eauto|].
    apply list_elem_of_In, in_flat_map in Hr as (child & _ & Hr).
    eapply IH, list_elem_of_In, Hr.
Qed.

(** C6: [hasChildren] is false for [null], true for a stack frame and the
    element's own flag otherwise; the children of a stack frame are its
    scopes and the children of any other element are its own children, each
    call making one request, for the element asked.  Fetching is on demand:
    when the tree refreshes, the only requests are the one for the scopes of
    the input frame and those for the children of expanded elements. *)
Theorem dataSource_children :
  VariablesDataSource.hasChildren None = false
  ∧ (∀ f, VariablesDataSource.hasChildren (Some (OfStackFrame f)) = true)
  ∧ (∀ e, VariablesDataSource.hasChildren (Some (OfElement e)) = hasChildren e)
  ∧ (∀ f, VariablesDataSource.doGetChildren (OfStackFrame f)
          = ([CallGetScopes (sf_getId f)], getScopes f))
  ∧ (∀ e, VariablesDataSource.doGetChildren (OfElement e)
          = ([CallGetChildren (getId e)], getChildren e))
  ∧ (∀ fuel expanded i r,
       r ∈ requestsOfRefresh fuel expanded i →
       (∃ f, i = Some f ∧ r = CallGetScopes (sf_getId f))
       ∨ (∃ x, r = CallGetChildren x ∧ x ∈ expanded)).
Proof.
  repeat split.
  intros fuel expanded [f|] r; unfold requestsOfRefresh; simpl;
    [|by intros ?%elem_of_nil].
  rewrite elem_of_cons. intros [->|Hr]; [left; by eauto|right].
  apply list_elem_of_In, in_flat_map in Hr as (scope & _ & Hr).
  eapply requestsBelow_expanded, list_elem_of_In, Hr.
Qed.

(** ** The scheduler and its timer *)

Lemma schedule_exec (delay : option nat) (s : State) :
  wf s = true →
  exec (Scheduler.schedule delay) s = scheduled (from_option id 400 delay) s.
Proof.
  destruct s as [[to tok rn] nr tr sv ae hs bv st li td [nt tb] n].
  unfold wf; simpl. rewrite !andb_true_iff, bool_decide_eq_true.
  intros [[-> ->] Htb].
  destruct tok as [tok|], tb as [|[t d] [|]]; try done.
  apply bool_decide_eq_true in Htb as ->.
  unfold Scheduler.schedule, Scheduler.cancel, Scheduler.setToken, scheduled,
    clearTimeout.
  run_monad. rewrite filter_cons, decide_False by (simpl; tauto).
  by rewrite filter_nil.
Qed.

Lemma wf_scheduled (delay : nat) (s : State) : wf (scheduled delay s) = true.
Proof. unfold wf, scheduled. simpl. by rewrite bool_decide_true. Qed.

(** The runner touches neither the scheduler, nor the timers, nor anything
    that [ViewPane] keeps, and it clears [needsRefresh]. *)
Lemma updateTree_frame (env : Env) (s : State) :
  let s' := exec (VariablesView.updateTree env) s in
  updateTreeScheduler s' = updateTreeScheduler s
  ∧ timers s' = timers s
  ∧ runs s' = runs s
  ∧ bodyVisible s' = bodyVisible s
  ∧ listening s' = listening s
  ∧ store s' = store s
  ∧ needsRefresh s' = false.
Proof.
  unfold VariablesView.updateTree, tree_getInput, tree_getViewState,
    tree_setInput, tree_hasNode, tree_expand.
  run_monad.
  destruct (WorkbenchAsyncDataTree.getInput (tree s)),
    (focusedStackFrame env) as [frame|]; simpl; try done;
    destruct (VariablesView.findToExpand (getScopes frame)); simpl; try done;
    by destruct (WorkbenchAsyncDataTree.hasNode _ _).
Qed.

Lemma elapse_exec (ms : nat) (env : Env) (s : State) :
  wf s = true →
  step (Elapse ms env) s =
    match table (timers s) with
    | [] => s
    | (tok, d) :: _ =>
        if decide (d ≤ ms) then fired env s
        else with_timers (mkTimers (nextToken (timers s)) [(tok, d - ms)]) s
    end.
Proof.
  destruct s as [[to tok rn] nr tr sv ae hs bv st li td [nt tb] n].
  unfold wf; simpl. rewrite !andb_true_iff, bool_decide_eq_true.
  intros [[-> ->] Htb].
  destruct tok as [tok|], tb as [|[t d] [|]]; try done.
  apply bool_decide_eq_true in Htb as ->.
  unfold step, dispatch, elapse, onTimeout, Scheduler.setToken, fired.
  run_monad. rewrite !filter_cons, !filter_nil. simpl.
  destruct (decide (d ≤ ms)) as [Hd|Hd].
  - rewrite decide_False by lia. simpl. run_monad.
    by destruct (VariablesView.updateTree env _).
  - rewrite decide_True by lia. simpl. by run_monad.
Qed.

Lemma wf_fired (env : Env) (s : State) :
  wf (fired env s) = true ∧ table (timers (fired env s)) = []
  ∧ runs (fired env s) = S (runs s)
  ∧ bodyVisible (fired env s) = bodyVisible s
  ∧ listening (fired env s) = listening s.
Proof.
  unfold fired.
  destruct (updateTree_frame env
    (with_runs (S (runs s))
       (with_updateTreeScheduler (mkScheduler 400 None true)
          (with_timers (mkTimers (nextToken (timers s)) []) s))))
    as (Hs & Ht & Hr & Hb & Hl & _ & _).
  unfold wf. by rewrite Hs, Ht, Hr, Hb, Hl.
Qed.

Lemma exec_gets {A} (f : State → A) (k : A → M unit) (s : State) :
  exec (gets f ≫= k) s = exec (k (f s)) s.
Proof. done. Qed.

Lemma exec_modify (f : State → State) (m : M unit) (s : State) :
  exec (modify f ;; m) s = exec m (f s).
Proof. done. Qed.

Lemma wf_table (s : State) :
  wf s = true → length (table (timers s)) ≤ 1.
Proof.
  unfold wf. rewrite !andb_true_iff. intros [_ Htb].
  destruct (timeoutToken _), (table _) as [|[] [|]]; simpl; try done; lia.
Qed.

Lemma focus_exec (sf : FocusEvent) (s : State) :
  Ready s →
  step (DidFocusStackFrame sf) s
  = scheduled (if explicit sf then 0 else 400) s.
Proof.
  intros (Hwf & Hvis & Hlive).
  unfold step, dispatch, whenListening, VariablesView.onDidFocusStackFrame.
  rewrite exec_gets, bool_decide_true, exec_gets, Hvis by done. simpl.
  rewrite schedule_exec by done. by destruct (explicit sf).
Qed.

Lemma Ready_step (ev : Event) (s : State) :
  Ready s → isFocusOrElapse ev = true →
  Ready (step ev s) ∧ runs s ≤ runs (step ev s).
Proof.
  intros HR Hev. pose proof HR as (Hwf & Hvis & Hlive).
  destruct ev as [sf| | | |ms env|]; try done.
  - rewrite focus_exec by done. repeat split; try done.
    apply wf_scheduled.
  - rewrite elapse_exec by done.
    destruct (table (timers s)) as [|[tok d] rest] eqn:Htb; [by split|].
    destruct (decide (d ≤ ms)).
    + destruct (wf_fired env s) as (Hwf' & _ & Hr & Hb & Hl).
      unfold Ready. rewrite Hb, Hl, Hr. repeat split; try done. lia.
    + split; [|done]. split; [|done].
      revert Hwf. unfold wf. simpl. rewrite Htb.
      destruct (timeoutToken _), rest; simpl; try done.
      by rewrite andb_false_r.
Qed.

Lemma timeline_pending (tl : list Event) (s : State) :
  Ready s → forallb isFocusOrElapse tl = true →
  Ready (run tl s) ∧ runs s ≤ runs (run tl s)
  ∧ (existsb isFocus tl = true → runs (run tl s) = runs s →
     ∃ tok d, table (timers (run tl s)) = [(tok, d)]).
Proof.
  intros HR. induction tl as [|ev tl IH] using rev_ind; intros Hall.
  - simpl. split; [done|]. split; [lia|done].
  - rewrite forallb_app in Hall. apply andb_true_iff in Hall as [Htl Hev].
    simpl in Hev. rewrite andb_true_r in Hev.
    destruct (IH Htl) as (HR' & Hle & Hpend). clear IH.
    unfold run in *. rewrite foldl_snoc.
    set (s' := foldl (λ s ev, step ev s) s tl) in *.
    destruct (Ready_step ev s' HR' Hev) as [HR'' Hle'].
    split; [done|]. split; [lia|].
    rewrite existsb_app. simpl. rewrite orb_false_r.
    intros Hfocus Hruns.
    destruct ev as [sf| | | |ms env|]; try done.
    + rewrite focus_exec by done. by eexists _, _.
    + simpl in Hfocus. rewrite orb_false_r in Hfocus.
      destruct Hpend as (tok & d & Htb); [done|lia|].
      destruct HR' as (Hwf & _). revert Hruns.
      rewrite elapse_exec, Htb by done.
      destruct (decide (d ≤ ms)).
      * destruct (wf_fired env s') as (_ & _ & -> & _). lia.
      * by eexists _, _.
Qed.

(** ** States that the view can reach *)

Lemma exec_seq (m k : M unit) (s : State) :
  exec (m ;; k) s = exec k (exec m s).
Proof. unfold exec, mbind, M_bind. by destruct (m s). Qed.

Lemma sameScheduling_refl (s : State) : sameScheduling s s.
Proof. by repeat split. Qed.

Lemma sameScheduling_trans (s1 s2 s3 : State) :
  sameScheduling s1 s2 → sameScheduling s2 s3 → sameScheduling s1 s3.
Proof.
  intros (? & ? & ? & ?) (? & ? & ? & ?). repeat split; congruence.
Qed.

Lemma wf_sameScheduling (s s' : State) :
  sameScheduling s s' → wf s' = wf s.
Proof. intros (Hs & Ht & _). unfold wf. by rewrite Hs, Ht. Qed.

Lemma select_sameScheduling (e : option SelectEvent) (s : State) :
  sameScheduling s (exec (VariablesView.onDidSelectExpression e) s).
Proof.
  unfold VariablesView.onDidSelectExpression, tree_hasNode,
    tree_updateOptions, tree_rerender.
  destruct e as [[variable w]|]; run_monad.
  - destruct (WorkbenchAsyncDataTree.hasNode variable (tree s)); simpl;
      [|by destruct (horizontalScrolling s)].
    by destruct (options (tree s) !! "horizontalScrolling") as [[]|].
  - by destruct (horizontalScrolling s).
Qed.

Lemma disposeOne_sameScheduling (d : Disposable) (s : State) :
  d ≠ D_updateTreeScheduler →
  sameScheduling s (exec (VariablesView.disposeOne d) s).
Proof. by destruct d. Qed.

Lemma forEach_dispose_sameScheduling (l : list Disposable) (s : State) :
  D_updateTreeScheduler ∉ l →
  sameScheduling s (exec (forEach l VariablesView.disposeOne) s).
Proof.
  revert s. induction l as [|d l IH]; intros s Hl; simpl.
  - apply sameScheduling_refl.
  - apply not_elem_of_cons in Hl as [Hd Hl]. rewrite exec_seq.
    eapply sameScheduling_trans; [by apply disposeOne_sameScheduling|].
    by apply IH.
Qed.

(** Disposing a view whose store does not hold the scheduler leaves the
    scheduler and the timers as they are. *)
Lemma dispose_exec (s : State) :
  D_updateTreeScheduler ∉ store s →
  updateTreeScheduler (step Dispose s) = updateTreeScheduler s
  ∧ timers (step Dispose s) = timers s
  ∧ runs (step Dispose s) = runs s
  ∧ store (step Dispose s) = [].
Proof.
  intros Hst. unfold step, dispatch, VariablesView.dispose.
  rewrite exec_gets, exec_seq.
  destruct (forEach_dispose_sameScheduling (store s) s Hst) as (? & ? & ? & ?).
  by unfold modify, exec.
Qed.

Lemma Inv_rendered treeOptions focused scopes :
  Inv (rendered treeOptions focused scopes).
Proof.
  split; [done|]. apply (bool_decide_unpack _). by vm_compute.
Qed.

Lemma Inv_sameScheduling (s s' : State) :
  sameScheduling s s' → Inv s → Inv s'.
Proof.
  intros Hsame [Hwf Hst]. split.
  - by rewrite (wf_sameScheduling s s').
  - destruct Hsame as (_ & _ & -> & _). done.
Qed.

Lemma Inv_scheduled (delay : nat) (s : State) :
  Inv s → Inv (scheduled delay s).
Proof. intros [_ Hst]. split; [apply wf_scheduled|done]. Qed.

Lemma whenListening_exec (d : Disposable) (m : M unit) (s : State) :
  exec (whenListening d m) s
  = if bool_decide (d ∈ listening s) then exec m s else s.
Proof.
  unfold whenListening. rewrite exec_gets. by destruct (bool_decide _).
Qed.

Lemma Inv_step (ev : Event) (s : State) : Inv s → Inv (step ev s).
Proof.
  intros HI. pose proof HI as [Hwf Hst].
  destruct ev as [sf|visible|e| |ms env|]; unfold step, dispatch.
  - rewrite whenListening_exec. case_bool_decide; [|done].
    unfold VariablesView.onDidFocusStackFrame. rewrite exec_gets.
    destruct (bodyVisible s); simpl.
    + rewrite schedule_exec by done. by apply Inv_scheduled.
    + by eapply Inv_sameScheduling; [|done].
  - rewrite exec_modify, whenListening_exec.
    assert (Inv (with_bodyVisible visible s)) as HI'
      by (by eapply Inv_sameScheduling; [|done]).
    case_bool_decide; [|done].
    unfold VariablesView.onDidChangeBodyVisibility. rewrite exec_gets.
    destruct (visible && _); [|done].
    rewrite schedule_exec by apply HI'. by apply Inv_scheduled.
  - rewrite whenListening_exec. case_bool_decide; [|done].
    eapply Inv_sameScheduling; [apply select_sameScheduling|done].
  - rewrite whenListening_exec. case_bool_decide; [|done].
    by eapply Inv_sameScheduling; [|done].
  - change (exec (elapse ms env) s) with (step (Elapse ms env) s).
    rewrite elapse_exec by done.
    destruct (table (timers s)) as [|[tok d] rest] eqn:Htb; [done|].
    destruct (decide (d ≤ ms)).
    + split; [apply wf_fired|].
      unfold fired.
      destruct (updateTree_frame env
        (with_runs (S (runs s))
           (with_updateTreeScheduler (mkScheduler 400 None true)
              (with_timers (mkTimers (nextToken (timers s)) []) s))))
        as (_ & _ & _ & _ & _ & -> & _). done.
    + split; [|done]. revert Hwf. unfold wf. simpl. rewrite Htb.
      destruct (timeoutToken _), rest; simpl; try done.
      by rewrite andb_false_r.
  - change (exec VariablesView.dispose s) with (step Dispose s).
    destruct (dispose_exec s Hst) as (Hs & Ht & _ & Hst').
    split; [|rewrite Hst'; apply not_elem_of_nil].
    unfold wf. by rewrite Hs, Ht.
Qed.

Lemma Reachable_Inv (s : State) : Reachable s → Inv s.
Proof.
  intros (treeOptions & focused & scopes & evs & ->).
  induction evs as [|ev evs IH] using rev_ind.
  - apply Inv_rendered.
  - unfold run. rewrite foldl_snoc. by apply Inv_step.
Qed.

Lemma Reachable_step (ev : Event) (s : State) :
  Reachable s → Reachable (step ev s).
Proof.
  intros (treeOptions & focused & scopes & evs & ->).
  exists treeOptions, focused, scopes, (evs ++ [ev]).
  unfold run. by rewrite foldl_snoc.
Qed.

(** ** The debounced refresh *)

Lemma debounced_ready (s : State) (tl : list Event) :
  Ready s →
  forallb isFocusOrElapse tl = true →
  (∀ sf, table (timers (step (DidFocusStackFrame sf) s))
         = [(nextToken (timers s), if explicit sf then 0 else 400)])
  ∧ length (table (timers (run tl s))) ≤ 1
  ∧ (existsb isFocus tl = true → runs (run tl s) = runs s →
     ∃ tok d, table (timers (run tl s)) = [(tok, d)]
       ∧ ∀ ms env, d ≤ ms →
           runs (step (Elapse ms env) (run tl s)) = S (runs s)
           ∧ table (timers (step (Elapse ms env) (run tl s))) = []).
Proof.
  intros HR Hall.
  destruct (timeline_pending tl s HR Hall) as ((Hwf & Hvis & Hlive) & _ & Hpend).
  split; [|split].
  - intros sf. by rewrite focus_exec.
  - by apply wf_table.
  - intros Hfocus Hruns. destruct (Hpend Hfocus Hruns) as (tok & d & Htb).
    exists tok, d. split; [done|]. intros ms env Hd.
    rewrite elapse_exec, Htb, decide_True by done.
    destruct (wf_fired env (run tl s)) as (_ & -> & -> & _).
    by rewrite Hruns.
Qed.

(** C1: in every state that the view can reach, with its body visible and
    its focus listener subscribed, a focus change leaves exactly one pending
    timer for the refresh, its own, whatever was pending before; a timeline
    of focus changes and pauses never has more than one pending; and as long
    as no refresh has run since these focus changes began, exactly one is
    pending, which runs once when its delay has passed and leaves nothing
    pending. *)
Theorem refresh_debounced (s : State) (tl : list Event) :
  Reachable s → bodyVisible s = true →
  D_onDidFocusStackFrame ∈ listening s →
  forallb isFocusOrElapse tl = true →
  (∀ sf, table (timers (step (DidFocusStackFrame sf) s))
         = [(nextToken (timers s), if explicit sf then 0 else 400)])
  ∧ length (table (timers (run tl s))) ≤ 1
  ∧ (existsb isFocus tl = true → runs (run tl s) = runs s →
     ∃ tok d, table (timers (run tl s)) = [(tok, d)]
       ∧ ∀ ms env, d ≤ ms →
           runs (step (Elapse ms env) (run tl s)) = S (runs s)
           ∧ table (timers (step (Elapse ms env) (run tl s))) = []).
Proof.
  intros [Hwf _]%Reachable_Inv Hvis Hlive. by apply debounced_ready.
Qed.

(** C2: in every reachable state with the body visible, the focus change
    for a frame sets the timer of the refresh to 0 ms when the change is
    explicit, and otherwise to the delay the scheduler was built with, which
    is 400 ms. *)
Theorem focus_delay (s : State) (sf : FocusEvent) :
  Reachable s → bodyVisible s = true →
  D_onDidFocusStackFrame ∈ listening s →
  timeout (updateTreeScheduler s) = 400
  ∧ table (timers (step (DidFocusStackFrame sf) s))
    = [(nextToken (timers s),
        if explicit sf then 0 else timeout (updateTreeScheduler s))]
  ∧ timeoutToken (updateTreeScheduler (step (DidFocusStackFrame sf) s))
    = Some (nextToken (timers s)).
Proof.
  intros [Hwf _]%Reachable_Inv Hvis Hlive.
  assert (timeout (updateTreeScheduler s) = 400) as Hto.
  { revert Hwf. unfold wf. rewrite !andb_true_iff, bool_decide_eq_true.
    tauto. }
  rewrite focus_exec, Hto by done. done.
Qed.

(** ** The hidden view *)

(** C9: a focus change that arrives while the body is hidden only sets
    [needsRefresh]: nothing is scheduled.  A change of visibility schedules
    the refresh, with the default delay, exactly when the body becomes
    visible with the flag set, and the flag stays set until the runner
    starts, which clears it. *)
Theorem refresh_deferred (s : State) :
  Reachable s →
  D_onDidFocusStackFrame ∈ listening s →
  D_onDidChangeBodyVisibility ∈ listening s →
  (∀ sf, bodyVisible s = false →
         step (DidFocusStackFrame sf) s = with_needsRefresh true s)
  ∧ (∀ visible,
       step (DidChangeBodyVisibility visible) s
       = if visible && needsRefresh s
         then scheduled 400 (with_bodyVisible visible s)
         else with_bodyVisible visible s)
  ∧ (∀ sf env, bodyVisible s = false →
       let s1 := step (DidFocusStackFrame sf) s in
       let s2 := step (DidChangeBodyVisibility true) s1 in
       let s3 := step (Elapse 400 env) s2 in
       timers s1 = timers s ∧ needsRefresh s1 = true
       ∧ table (timers s2) = [(nextToken (timers s), 400)]
       ∧ needsRefresh s2 = true
       ∧ runs s2 = runs s
       ∧ runs s3 = S (runs s) ∧ needsRefresh s3 = false)
  ∧ (∀ env, needsRefresh (exec (VariablesView.updateTree env) s) = false).
Proof.
  intros [Hwf Hst]%Reachable_Inv Hfocus Hvisibility.
  assert (∀ sf, bodyVisible s = false →
    step (DidFocusStackFrame sf) s = with_needsRefresh true s) as Hhidden.
  { intros sf Hvis. unfold step, dispatch.
    rewrite whenListening_exec, bool_decide_true by done.
    unfold VariablesView.onDidFocusStackFrame. by rewrite exec_gets, Hvis. }
  assert (∀ s0 visible, wf s0 = true →
    D_onDidChangeBodyVisibility ∈ listening s0 →
    step (DidChangeBodyVisibility visible) s0
    = if visible && needsRefresh s0
      then scheduled 400 (with_bodyVisible visible s0)
      else with_bodyVisible visible s0) as Hshow.
  { intros s0 visible Hwf0 Hl0. unfold step, dispatch.
    rewrite exec_modify, whenListening_exec, bool_decide_true by done.
    unfold VariablesView.onDidChangeBodyVisibility. rewrite exec_gets. simpl.
    destruct (visible && needsRefresh s0); [|done].
    rewrite schedule_exec; [done|].
    by rewrite (wf_sameScheduling s0 (with_bodyVisible visible s0)). }
  split; [done|]. split; [by intros; apply Hshow|]. split.
  - intros sf env Hvis. simpl. rewrite Hhidden by done.
    rewrite Hshow by done. simpl.
    rewrite elapse_exec by apply wf_scheduled. simpl.
    destruct (wf_fired env
      (scheduled 400 (with_bodyVisible true (with_needsRefresh true s))))
      as (_ & _ & Hr & _).
    repeat split; try done.
    unfold fired. apply updateTree_frame.
  - intros env. apply updateTree_frame.
Qed.

(** ** The runner of the scheduler *)

(** The runner in closed form. *)
Lemma updateTree_exec (env : Env) (s : State) :
  exec (VariablesView.updateTree env) s =
    let s1 := with_savedViewState (savedAfter s) (with_needsRefresh false s) in
    match focusedStackFrame env with
    | None =>
        with_tree (WorkbenchAsyncDataTree.setInput None None [] (tree s)) s1
    | Some frame =>
        let s2 :=
          with_tree
            (WorkbenchAsyncDataTree.setInput (Some frame)
               (savedAfter s !! sf_getId frame) (loaded env) (tree s)) s1 in
        match VariablesView.findToExpand (getScopes frame) with
        | Some e =>
            if WorkbenchAsyncDataTree.hasNode e (tree s2)
            then with_tree (WorkbenchAsyncDataTree.expand e (tree s2))
                   (with_autoExpandedScopes
                      ({[getId e]} ∪ autoExpandedScopes s) s2)
            else s2
        | None => s2
        end
    end.
Proof.
  unfold VariablesView.updateTree, tree_getInput, tree_getViewState,
    tree_setInput, tree_hasNode, tree_expand, savedAfter.
  run_monad.
  destruct (WorkbenchAsyncDataTree.getInput (tree s)),
    (focusedStackFrame env) as [frame|]; simpl; try done;
    destruct (VariablesView.findToExpand (getScopes frame)); simpl; try done;
    by destruct (WorkbenchAsyncDataTree.hasNode _ _).
Qed.

Lemma updateTree_focused (env : Env) (s : State) (frame : IStackFrame) :
  focusedStackFrame env = Some frame →
  let s' := exec (VariablesView.updateTree env) s in
  let call := SetInput (Some frame) (savedAfter s !! sf_getId frame) in
  WorkbenchAsyncDataTree.getInput (tree s') = Some frame
  ∧ savedViewState s' = savedAfter s
  ∧ (calls (tree s') = calls (tree s) ++ [call]
     ∨ ∃ e, calls (tree s') = calls (tree s) ++ [call; Expand (getId e)]).
Proof.
  intros Hframe. simpl. rewrite updateTree_exec, Hframe. simpl.
  destruct (VariablesView.findToExpand (getScopes frame)) as [e|];
    [|by repeat split; left].
  destruct (WorkbenchAsyncDataTree.hasNode e _); [|by repeat split; left].
  repeat split. right. exists e. simpl. by rewrite <- app_assoc.
Qed.

(** C3: the runner first stores the view state of the current input, if
    there is one, under the id of that input.  With no focused frame it then
    sets the input of the tree to [null] and does nothing more.  With a
    focused frame it sets the input to that frame, with the view state that
    the cache holds under the id of the frame, and the only call that may
    follow is the expansion of one scope.  So a frame that was the input
    gets its view state back when it is focused again after another
    frame. *)
Theorem refresh_saves_and_restores (env : Env) (s : State) :
  let s' := exec (VariablesView.updateTree env) s in
  savedViewState s' =
    match WorkbenchAsyncDataTree.getInput (tree s) with
    | Some i =>
        <[sf_getId i := WorkbenchAsyncDataTree.getViewState (tree s)]>
          (savedViewState s)
    | None => savedViewState s
    end
  ∧ match focusedStackFrame env with
    | None =>
        s' = with_tree
               (WorkbenchAsyncDataTree.setInput None None [] (tree s))
               (with_savedViewState (savedViewState s')
                  (with_needsRefresh false s))
    | Some frame =>
        let call := SetInput (Some frame) (savedViewState s' !! sf_getId frame) in
        WorkbenchAsyncDataTree.getInput (tree s') = Some frame
        ∧ (calls (tree s') = calls (tree s) ++ [call]
           ∨ ∃ e, calls (tree s') = calls (tree s) ++ [call; Expand (getId e)])
    end
  ∧ (∀ previous frame back,
       WorkbenchAsyncDataTree.getInput (tree s) = Some previous →
       focusedStackFrame env = Some frame →
       focusedStackFrame back = Some previous →
       sf_getId previous ≠ sf_getId frame →
       let restored := WorkbenchAsyncDataTree.getViewState (tree s) in
       let s'' := exec (VariablesView.updateTree back) s' in
       let call := SetInput (Some previous) (Some restored) in
       calls (tree s'') = calls (tree s') ++ [call]
       ∨ ∃ e, calls (tree s'') = calls (tree s') ++ [call; Expand (getId e)]).
Proof.
  simpl. split; [|split].
  - fold (savedAfter s). rewrite updateTree_exec.
    destruct (focusedStackFrame env) as [frame|]; simpl; [|done].
    destruct (VariablesView.findToExpand _); [|done].
    by destruct (WorkbenchAsyncDataTree.hasNode _ _).
  - destruct (focusedStackFrame env) as [frame|] eqn:Hframe.
    + destruct (updateTree_focused env s frame Hframe) as (Hi & -> & Hc).
      done.
    + by rewrite updateTree_exec, Hframe.
  - intros previous frame back Hprev Hframe Hback Hne.
    destruct (updateTree_focused env s frame Hframe) as (Hi & Hsaved & _).
    destruct (updateTree_focused back (exec (VariablesView.updateTree env) s)
                previous Hback) as (_ & _ & Hc).
    assert (savedAfter (exec (VariablesView.updateTree env) s)
              !! sf_getId previous
            = Some (WorkbenchAsyncDataTree.getViewState (tree s))) as Hlookup.
    { unfold savedAfter at 1. rewrite Hi, Hsaved. unfold savedAfter.
      by rewrite Hprev, lookup_insert_ne, lookup_insert_eq. }
    simpl in Hc. by rewrite Hlookup in Hc.
Qed.

(** C10: after the input has been set to the focused frame, the runner
    looks for the first scope of the frame that is not expensive.  If there
    is one and the tree holds its node, its id joins [autoExpandedScopes]
    and the scope is expanded; if the tree does not hold it, or if every
    scope is expensive, [autoExpandedScopes] stays as it is and nothing is
    expanded. *)
Theorem auto_expand_first_cheap_scope (frame : IStackFrame)
  (treeLoaded : list TreeElement) (s : State) :
  let s' := exec (VariablesView.updateTree (mkEnv (Some frame) treeLoaded)) s in
  let call := SetInput (Some frame) (savedAfter s !! sf_getId frame) in
  let restored := from_option vs_expanded ∅ (savedAfter s !! sf_getId frame) in
  match VariablesView.findToExpand (getScopes frame) with
  | Some e =>
      (∃ i, getScopes frame !! i = Some e ∧ expensive e = false
            ∧ ∀ j y, getScopes frame !! j = Some y → j < i → expensive y = true)
      ∧ if bool_decide (getId e ∈ getId <$> treeLoaded)
        then autoExpandedScopes s' = {[getId e]} ∪ autoExpandedScopes s
             ∧ expandedNodes (tree s') = {[getId e]} ∪ restored
             ∧ calls (tree s') = calls (tree s) ++ [call; Expand (getId e)]
        else autoExpandedScopes s' = autoExpandedScopes s
             ∧ expandedNodes (tree s') = restored
             ∧ calls (tree s') = calls (tree s) ++ [call]
  | None =>
      Forall (λ y, expensive y = true) (getScopes frame)
      ∧ autoExpandedScopes s' = autoExpandedScopes s
      ∧ expandedNodes (tree s') = restored
      ∧ calls (tree s') = calls (tree s) ++ [call]
  end.
Proof.
  simpl. rewrite updateTree_exec. simpl.
  unfold VariablesView.findToExpand.
  destruct (list_find _ (getScopes frame)) as [[i e]|] eqn:Hfind; simpl.
  - apply list_find_Some in Hfind as (Hi & He & Hbefore). split.
    { exists i. repeat split; try done. intros j y Hj Hlt.
      specialize (Hbefore j y Hj Hlt). by destruct (expensive y). }
    assert (WorkbenchAsyncDataTree.hasNode e
              (WorkbenchAsyncDataTree.setInput (Some frame)
                 (savedAfter s !! sf_getId frame) treeLoaded (tree s))
            = bool_decide (getId e ∈ getId <$> treeLoaded)) as Hhas.
    { apply bool_decide_ext, elem_of_list_to_set. }
    rewrite Hhas. case_bool_decide as Hnode; [|done].
    unfold WorkbenchAsyncDataTree.expand. rewrite Hhas. simpl.
    by rewrite <- app_assoc.
  - apply list_find_None in Hfind. repeat split; try done.
    eapply Forall_impl; [done|]. intros y Hy. simpl in Hy.
    by destruct (expensive y).
Qed.

(** ** Selection and horizontal scrolling *)

Lemma updateOptions_lookup (k : string) (v : bool) (m : gmap string bool)
  (j : string) :
  ({[k := v]} ∪ m) !! j = if decide (k = j) then Some v else m !! j.
Proof.
  destruct (decide (k = j)) as [->|Hne].
  - by rewrite lookup_union_l', lookup_singleton_eq
      by (rewrite lookup_singleton_eq; eauto).
  - by rewrite lookup_union_r by by apply lookup_singleton_ne.
Qed.

Lemma select_present_exec (ev : SelectEvent) (s : State) :
  WorkbenchAsyncDataTree.hasNode (expression ev) (tree s) = true →
  exec (VariablesView.onDidSelectExpression (Some ev)) s =
    let current := options (tree s) !! "horizontalScrolling" in
    let s1 := with_horizontalScrolling current s in
    let s2 :=
      if from_option id false current
      then with_tree
             (WorkbenchAsyncDataTree.updateOptions
                {["horizontalScrolling" := false]} (tree s)) s1
      else s1 in
    with_tree (WorkbenchAsyncDataTree.rerender (expression ev) (tree s2)) s2.
Proof.
  intros Hnode.
  unfold VariablesView.onDidSelectExpression, tree_hasNode,
    tree_updateOptions, tree_rerender.
  run_monad. rewrite Hnode. simpl.
  by destruct (options (tree s) !! "horizontalScrolling") as [[]|].
Qed.

Lemma select_cleared_exec (s : State) :
  exec (VariablesView.onDidSelectExpression None) s =
    match horizontalScrolling s with
    | Some remembered =>
        with_horizontalScrolling None
          (with_tree
             (WorkbenchAsyncDataTree.updateOptions
                {["horizontalScrolling" := remembered]} (tree s)) s)
    | None => s
    end.
Proof.
  unfold VariablesView.onDidSelectExpression, tree_updateOptions.
  run_monad. by destruct (horizontalScrolling s).
Qed.

(** C8: when the selected variable is in the tree, the listener remembers
    the value of the option [horizontalScrolling] and, if it was on, turns
    it off; when the selection is cleared while a value is remembered, the
    option gets exactly that value back and nothing is remembered any more;
    no event of this listener changes any other option of the tree. *)
Theorem selection_horizontal_scrolling (s : State) :
  (∀ ev, WorkbenchAsyncDataTree.hasNode (expression ev) (tree s) = true →
     let s' := exec (VariablesView.onDidSelectExpression (Some ev)) s in
     horizontalScrolling s' = options (tree s) !! "horizontalScrolling"
     ∧ options (tree s') !! "horizontalScrolling"
       = match options (tree s) !! "horizontalScrolling" with
         | Some true => Some false
         | other => other
         end)
  ∧ (∀ remembered, horizontalScrolling s = Some remembered →
     let s' := exec (VariablesView.onDidSelectExpression None) s in
     options (tree s') !! "horizontalScrolling" = Some remembered
     ∧ horizontalScrolling s' = None)
  ∧ (∀ ev enabled,
       WorkbenchAsyncDataTree.hasNode (expression ev) (tree s) = true →
       options (tree s) !! "horizontalScrolling" = Some enabled →
       let s' := exec (VariablesView.onDidSelectExpression None)
                   (exec (VariablesView.onDidSelectExpression (Some ev)) s) in
       options (tree s') !! "horizontalScrolling" = Some enabled
       ∧ horizontalScrolling s' = None)
  ∧ (∀ e k, k ≠ "horizontalScrolling" →
       options (tree (exec (VariablesView.onDidSelectExpression e) s)) !! k
       = options (tree s) !! k).
Proof.
  split; [|split; [|split]].
  - intros ev Hnode. simpl. rewrite select_present_exec by done.
    destruct (options (tree s) !! "horizontalScrolling") as [[]|] eqn:Hopt;
      simpl; try done.
    split; [done|]. by rewrite updateOptions_lookup, decide_True.
  - intros remembered Hrem. simpl. rewrite select_cleared_exec, Hrem.
    simpl. split; [|done]. by rewrite updateOptions_lookup, decide_True.
  - intros ev enabled Hnode Hopt. simpl.
    rewrite select_cleared_exec, select_present_exec by done. simpl.
    rewrite Hopt. simpl. split; [|by destruct enabled].
    destruct enabled; simpl; by rewrite updateOptions_lookup, decide_True.
  - intros e k Hk.
    destruct e as [ev|].
    + destruct (WorkbenchAsyncDataTree.hasNode (expression ev) (tree s))
        eqn:Hnode.
      * rewrite select_present_exec by done. simpl.
        destruct (from_option id false _); simpl; [|done].
        by rewrite updateOptions_lookup, decide_False.
      * unfold VariablesView.onDidSelectExpression, tree_hasNode.
        run_monad. by rewrite Hnode.
    + rewrite select_cleared_exec.
      destruct (horizontalScrolling s); [|done]. simpl.
      by rewrite updateOptions_lookup, decide_False.
Qed.

(** ** Disposal *)

Lemma dispose_keeps_timer (s : State) :
  Reachable s →
  timers (step Dispose s) = timers s
  ∧ updateTreeScheduler (step Dispose s) = updateTreeScheduler s
  ∧ ∀ tok d ms env,
      table (timers s) = [(tok, d)] → d ≤ ms →
      runs (step (Elapse ms env) (step Dispose s)) = S (runs s).
Proof.
  intros HR. pose proof (Reachable_Inv s HR) as [Hwf Hst].
  destruct (dispose_exec s Hst) as (Hs & Ht & Hr & _).
  split; [done|]. split; [done|]. intros tok d ms env Htb Hd.
  pose proof (Reachable_Inv _ (Reachable_step Dispose s HR)) as [Hwf' _].
  rewrite elapse_exec, Ht, Htb, decide_True by done.
  destruct (wf_fired env (step Dispose s)) as (_ & _ & -> & _).
  by rewrite Hr.
Qed.

(** C4: disposal does not cancel a pending refresh.  Disposing the view
    disposes the listeners and the tree that [renderBody] registered, but
    the scheduler was never registered: its timer stays pending and the
    runner starts when the delay has passed, on the disposed view. *)
Theorem dispose_leaves_refresh_pending :
  listening disposedWhilePending = []
  ∧ treeDisposed disposedWhilePending = true
  ∧ (D_updateTreeScheduler ∉ store (rendered ∅ None []))
  ∧ table (timers disposedWhilePending) = [(0, 400)]
  ∧ runs disposedWhilePending = 0
  ∧ runs (step (Elapse 400 (mkEnv None [])) disposedWhilePending) = 1.
Proof.
  repeat split; try by vm_compute.
  apply (bool_decide_unpack _). by vm_compute.
Qed.

(** Had the constructor registered the scheduler, disposal would cancel the
    pending refresh. *)
Lemma dispose_cancels_registered_scheduler :
  let s := run [DidChangeBodyVisibility true;
                DidFocusStackFrame (mkFocusEvent None false)]
             (exec (VariablesView._register D_updateTreeScheduler)
                (rendered ∅ None [])) in
  table (timers s) = [(0, 400)]
  ∧ table (timers (step Dispose s)) = []
  ∧ runs (step (Elapse 400 (mkEnv None [])) (step Dispose s)) = 0.
Proof. by vm_compute. Qed.

(** ** The data breakpoint commands *)

(** What one opening of the menu does to the response held. *)
Lemma openMenu_response (o : MenuOpening) (g : Globals) :
  dataBreakpointInfoResponse (openMenu o g)
  = from_option id (dataBreakpointInfoResponse g) (storedByOpening o).
Proof.
  unfold openMenu, openContextMenuForVariableTreeElement, storedByOpening,
    getContextForVariableMenuWithDataAccess.
  destruct (opened o) as [variable|]; [|done].
  destruct (instanceof (cls variable) C_Variable),
    (String.eqb (value variable) ""); simpl;
    try by destruct (openedSession o).
  destruct (openedSession o) as [session|]; [|done].
  destruct (supportsDataBreakpoints session); simpl; [|done].
  by destruct (dataBreakpointInfo session (name variable) _).
Qed.

(** C7: each of the three commands adds exactly one data breakpoint when a
    response of [dataBreakpointInfo] is held, with the description, the
    data id and the access types of that response, its [canPersist] read as
    a boolean, and the access type of the command: [write], [readWrite] and
    [read]; it adds none when no response is held.  The response held after
    any history of menu openings is the answer stored by the last opening
    that stored one, on a variable with a value whose session has data
    breakpoints and answers the request; every other opening leaves the
    response as it was. *)
Theorem data_breakpoint_commands :
  (∀ g,
     match dataBreakpointInfoResponse g with
     | Some response =>
         let built accessType :=
           mkDataBreakpoint (description response)
             (mkSource SetType_Variable (dataId response))
             (match canPersist response with Some b => b | None => false end)
             (accessTypes response) accessType in
         executeCommand "debug.breakWhenValueChanges" g
         = Some [built AccessWrite]
         ∧ executeCommand "debug.breakWhenValueIsAccessed" g
           = Some [built AccessReadWrite]
         ∧ executeCommand "debug.breakWhenValueIsRead" g
           = Some [built AccessRead]
     | None =>
         executeCommand "debug.breakWhenValueChanges" g = Some []
         ∧ executeCommand "debug.breakWhenValueIsAccessed" g = Some []
         ∧ executeCommand "debug.breakWhenValueIsRead" g = Some []
     end)
  ∧ (∀ history g,
       dataBreakpointInfoResponse (openMenus history g)
       = heldAfter (dataBreakpointInfoResponse g) history).
Proof.
  split.
  - intros g. unfold executeCommand. simpl.
    unfold breakWhenValueChanges, breakWhenValueIsAccessed, breakWhenValueIsRead.
    by destruct (dataBreakpointInfoResponse g) as [[? ? [] ?]|].
  - intros history g. unfold heldAfter, openMenus.
    induction history as [|o history IH] using rev_ind; [done|].
    rewrite foldl_snoc, openMenu_response, IH, omap_app. simpl.
    destruct (storedByOpening o) as [stored|]; simpl.
    + by rewrite last_snoc.
    + by rewrite app_nil_r.
Qed.

(** C7, as the claim has it: it fails for [staleHistory].  The menu opened
    last, for [pi], captures nothing, and yet the command for changes adds
    the data breakpoint of [x]. *)
Lemma data_breakpoint_commands_counterexample :
  ¬ commandsFollowLastOpening staleHistory.
Proof. intros (Hchanges & _). by vm_compute in Hchanges. Qed.

(** A menu opened for a variable whose session has no data breakpoints
    leaves the response as it was. *)
Lemma menu_without_data_breakpoints (g : Globals) (variable : TreeElement)
  (session : IDebugSession) (parentReference : option nat) :
  supportsDataBreakpoints session = false →
  dataBreakpointInfoResponse
    (openContextMenuForVariableTreeElement (Some variable) (Some session)
       parentReference g)
  = dataBreakpointInfoResponse g.
Proof.
  intros Hcap.
  unfold openContextMenuForVariableTreeElement,
    getContextForVariableMenuWithDataAccess.
  rewrite Hcap. simpl. by destruct (_ || _).
Qed.

(** A menu whose request is rejected leaves the variables of the module as
    they were. *)
Lemma menu_with_rejected_request (g : Globals) (variable : TreeElement)
  (session : IDebugSession) (parentReference : option nat) :
  supportsDataBreakpoints session = true →
  dataBreakpointInfo session (name variable) parentReference = InfoRejected →
  openContextMenuForVariableTreeElement (Some variable) (Some session)
    parentReference g = g.
Proof.
  intros Hcap Hrejected.
  unfold openContextMenuForVariableTreeElement,
    getContextForVariableMenuWithDataAccess.
  rewrite Hcap, Hrejected. simpl. by destruct (_ || _).
Qed.


(** ** The properties on the sample data *)

Lemma Reachable_hidden : Reachable hidden.
Proof.
  by exists {["horizontalScrolling" := true]}, (Some frameMain),
    [scopeGlobals; scopeLocals; variableX], [].
Qed.

Lemma Reachable_shown : Reachable shown.
Proof. apply Reachable_step, Reachable_hidden. Qed.

Lemma dataSource_children_witness :
  CallGetChildren "scope:1:Locals"
    ∈ requestsOfRefresh 3 {["scope:1:Locals"]} (Some frameMain)
  ∧ ((∃ f, Some frameMain = Some f
           ∧ CallGetChildren "scope:1:Locals" = CallGetScopes (sf_getId f))
     ∨ (∃ x, CallGetChildren "scope:1:Locals" = CallGetChildren x
             ∧ x ∈ ({["scope:1:Locals"]} : gset string))).
Proof.
  assert (CallGetChildren "scope:1:Locals"
            ∈ requestsOfRefresh 3 {["scope:1:Locals"]} (Some frameMain)) as Hr.
  { apply list_elem_of_In. vm_compute. tauto. }
  split; [exact Hr|].
  destruct dataSource_children as (_ & _ & _ & _ & _ & Hdemand).
  exact (Hdemand 3 {["scope:1:Locals"]} (Some frameMain) _ Hr).
Defined.

Lemma refresh_debounced_witness :
  Reachable shown ∧ bodyVisible shown = true
  ∧ D_onDidFocusStackFrame ∈ listening shown
  ∧ forallb isFocusOrElapse stepping = true
  ∧ existsb isFocus stepping = true
  ∧ runs (run stepping shown) = runs shown
  ∧ length (table (timers (run stepping shown))) ≤ 1
  ∧ ∃ tok d, table (timers (run stepping shown)) = [(tok, d)]
      ∧ ∀ ms env, d ≤ ms →
          runs (step (Elapse ms env) (run stepping shown)) = S (runs shown)
          ∧ table (timers (step (Elapse ms env) (run stepping shown))) = [].
Proof.
  assert (bodyVisible shown = true) as Hvis by reflexivity.
  assert (D_onDidFocusStackFrame ∈ listening shown) as Hlive
    by (apply (bool_decide_unpack _); vm_compute; exact I).
  assert (forallb isFocusOrElapse stepping = true) as Hall by reflexivity.
  assert (existsb isFocus stepping = true) as Hfocus by reflexivity.
  assert (runs (run stepping shown) = runs shown) as Hruns
    by (vm_compute; reflexivity).
  destruct (refresh_debounced shown stepping Reachable_shown Hvis Hlive Hall)
    as (_ & Hone & Hpending).
  repeat (split; [assumption || exact Reachable_shown|]).
  exact (Hpending Hfocus Hruns).
Defined.

Lemma focus_delay_witness :
  Reachable shown ∧ bodyVisible shown = true
  ∧ D_onDidFocusStackFrame ∈ listening shown
  ∧ table (timers (step (DidFocusStackFrame (mkFocusEvent (Some frameHelper) true))
                     shown))
    = [(nextToken (timers shown), 0)]
  ∧ table (timers (step (DidFocusStackFrame (mkFocusEvent (Some frameHelper) false))
                     shown))
    = [(nextToken (timers shown), 400)].
Proof.
  assert (bodyVisible shown = true) as Hvis by reflexivity.
  assert (D_onDidFocusStackFrame ∈ listening shown) as Hlive
    by (apply (bool_decide_unpack _); vm_compute; exact I).
  repeat (split; [assumption || exact Reachable_shown|]).
  destruct (focus_delay shown (mkFocusEvent (Some frameHelper) true)
              Reachable_shown Hvis Hlive) as (_ & Hexplicit & _).
  destruct (focus_delay shown (mkFocusEvent (Some frameHelper) false)
              Reachable_shown Hvis Hlive) as (Hdefault & Hstepping & _).
  split; [exact Hexplicit|].
  rewrite Hdefault in Hstepping. exact Hstepping.
Defined.

Lemma refresh_deferred_witness :
  Reachable hidden
  ∧ D_onDidFocusStackFrame ∈ listening hidden
  ∧ D_onDidChangeBodyVisibility ∈ listening hidden
  ∧ bodyVisible hidden = false
  ∧ step (DidFocusStackFrame (mkFocusEvent (Some frameHelper) false)) hidden
    = with_needsRefresh true hidden.
Proof.
  assert (D_onDidFocusStackFrame ∈ listening hidden) as Hfocus
    by (apply (bool_decide_unpack _); vm_compute; exact I).
  assert (D_onDidChangeBodyVisibility ∈ listening hidden) as Hvisibility
    by (apply (bool_decide_unpack _); vm_compute; exact I).
  assert (bodyVisible hidden = false) as Hvis by reflexivity.
  repeat (split; [assumption || exact Reachable_hidden|]).
  destruct (refresh_deferred hidden Reachable_hidden Hfocus Hvisibility)
    as (Hhidden & _).
  exact (Hhidden (mkFocusEvent (Some frameHelper) false) Hvis).
Defined.

Lemma refresh_saves_and_restores_witness :
  let env := mkEnv (Some frameHelper) [scopeGlobals] in
  let back := mkEnv (Some frameMain) [scopeGlobals; scopeLocals] in
  let s' := exec (VariablesView.updateTree env) shown in
  let s'' := exec (VariablesView.updateTree back) s' in
  let call :=
    SetInput (Some frameMain)
      (Some (WorkbenchAsyncDataTree.getViewState (tree shown))) in
  WorkbenchAsyncDataTree.getInput (tree shown) = Some frameMain
  ∧ sf_getId frameMain ≠ sf_getId frameHelper
  ∧ (calls (tree s'') = calls (tree s') ++ [call]
     ∨ ∃ e, calls (tree s'') = calls (tree s') ++ [call; Expand (getId e)]).
Proof.
  assert (sf_getId frameMain ≠ sf_getId frameHelper) as Hne by discriminate.
  split; [reflexivity|]. split; [exact Hne|].
  destruct (refresh_saves_and_restores (mkEnv (Some frameHelper) [scopeGlobals])
              shown) as (_ & _ & Hback).
  exact (Hback frameMain frameHelper
           (mkEnv (Some frameMain) [scopeGlobals; scopeLocals])
           eq_refl eq_refl eq_refl Hne).
Defined.

Lemma selection_horizontal_scrolling_witness :
  let select := Some (mkSelectEvent variableX false) in
  let s' := exec (VariablesView.onDidSelectExpression None)
              (exec (VariablesView.onDidSelectExpression select) shown) in
  WorkbenchAsyncDataTree.hasNode variableX (tree shown) = true
  ∧ options (tree shown) !! "horizontalScrolling" = Some true
  ∧ options (tree s') !! "horizontalScrolling" = Some true
  ∧ horizontalScrolling s' = None.
Proof.
  assert (WorkbenchAsyncDataTree.hasNode variableX (tree shown) = true)
    as Hnode by (vm_compute; reflexivity).
  assert (options (tree shown) !! "horizontalScrolling" = Some true)
    as Hopt by (vm_compute; reflexivity).
  split; [exact Hnode|]. split; [exact Hopt|].
  destruct (selection_horizontal_scrolling shown) as (_ & _ & Hround & _).
  exact (Hround (mkSelectEvent variableX false) true Hnode Hopt).
Defined.

Lemma data_breakpoint_commands_witness :
  dataBreakpointInfoResponse (openMenus staleHistory initialGlobals)
  = Some (mkInfoResponse (Some "data:x") "x" None
            (Some [AccessRead; AccessWrite]))
  ∧ capturedWhenLastOpened staleHistory = None.
Proof.
  destruct data_breakpoint_commands as (_ & Hheld).
  split; [|reflexivity].
  rewrite (Hheld staleHistory initialGlobals). reflexivity.
Defined.

Lemma auto_expand_first_cheap_scope_witness :
  let s' := exec (VariablesView.updateTree
                    (mkEnv (Some frameMain) [scopeGlobals; scopeLocals]))
              shown in
  let raced := exec (VariablesView.updateTree
                       (mkEnv (Some frameMain) [scopeGlobals]))
                 shown in
  VariablesView.findToExpand (getScopes frameMain) = Some scopeLocals
  ∧ autoExpandedScopes s' = {[getId scopeLocals]} ∪ autoExpandedScopes shown
  ∧ autoExpandedScopes raced = autoExpandedScopes shown.
Proof.
  pose proof (auto_expand_first_cheap_scope frameMain
                [scopeGlobals; scopeLocals] shown) as Hpresent.
  pose proof (auto_expand_first_cheap_scope frameMain [scopeGlobals] shown)
    as Habsent.
  change (VariablesView.findToExpand (getScopes frameMain))
    with (Some scopeLocals) in Hpresent, Habsent.
  destruct Hpresent as (_ & Hpresent). destruct Habsent as (_ & Habsent).
  rewrite bool_decide_true in Hpresent
    by (apply list_elem_of_In; vm_compute; tauto).
  rewrite bool_decide_false in Habsent
    by (intros Hin%list_elem_of_In; vm_compute in Hin;
        destruct Hin as [Hin|[]]; discriminate Hin).
  split; [reflexivity|]. split; [exact (proj1 Hpresent)|exact (proj1 Habsent)].
Defined.

(** * Further properties *)

Set Warnings "-clear-no-such-hyp".

(** ** Refreshing again *)

(** The tree and [autoExpandedScopes] after the runner, field by field. *)
Lemma updateTree_fields (env : Env) (s : State) (frame : IStackFrame) :
  focusedStackFrame env = Some frame →
  let s' := exec (VariablesView.updateTree env) s in
  let restored := savedAfter s !! sf_getId frame in
  input (tree s') = Some frame
  ∧ nodes (tree s') = list_to_set (getId <$> loaded env)
  ∧ options (tree s') = options (tree s)
  ∧ expandedNodes (tree s')
    = autoExpandTarget env frame ∪ from_option vs_expanded ∅ restored
  ∧ scrollTop (tree s') = from_option vs_scrollTop 0 restored
  ∧ autoExpandedScopes s' = autoExpandTarget env frame ∪ autoExpandedScopes s
  ∧ savedViewState s' = savedAfter s.
Proof.
  intros Hframe. simpl. rewrite updateTree_exec, Hframe. simpl.
  unfold autoExpandTarget.
  destruct (VariablesView.findToExpand (getScopes frame)) as [e|]; simpl.
  - unfold WorkbenchAsyncDataTree.expand, WorkbenchAsyncDataTree.hasNode. simpl.
    case_bool_decide; simpl; repeat split; try done; set_solver.
  - repeat split; try done; set_solver.
Qed.

(** X1: a second run of the runner with the same answers of the debug
    service leaves the tree as the first run left it: the same input, the
    same elements, the same expansion and scroll position, the same options,
    and the same [autoExpandedScopes]. *)
Theorem refresh_twice_same_tree (env : Env) (s : State) :
  let s1 := exec (VariablesView.updateTree env) s in
  let s2 := exec (VariablesView.updateTree env) s1 in
  input (tree s2) = input (tree s1)
  ∧ nodes (tree s2) = nodes (tree s1)
  ∧ expandedNodes (tree s2) = expandedNodes (tree s1)
  ∧ scrollTop (tree s2) = scrollTop (tree s1)
  ∧ options (tree s2) = options (tree s1)
  ∧ autoExpandedScopes s2 = autoExpandedScopes s1.
Proof.
  simpl. destruct (focusedStackFrame env) as [frame|] eqn:Hframe.
  - destruct (updateTree_fields env s frame Hframe)
      as (Hi & Hn & Ho & He & Hs & Ha & _).
    destruct (updateTree_fields env (exec (VariablesView.updateTree env) s)
                frame Hframe) as (Hi' & Hn' & Ho' & He' & Hs' & Ha' & _).
    simpl in *.
    assert (savedAfter (exec (VariablesView.updateTree env) s) !! sf_getId frame
            = Some (WorkbenchAsyncDataTree.getViewState
                      (tree (exec (VariablesView.updateTree env) s)))) as Hsaved.
    { unfold savedAfter, WorkbenchAsyncDataTree.getInput.
      by rewrite Hi, lookup_insert_eq. }
    rewrite Hsaved in He', Hs'. simpl in He', Hs'.
    rewrite Hi', Hn', Ho', He', Hs', Ha', Hi, Hn.
    repeat split; try done.
    + rewrite He. set_solver.
    + rewrite Ha. set_solver.
  - rewrite (updateTree_exec env (exec _ s)), (updateTree_exec env s), Hframe.
    done.
Qed.

(** ** Events in the states that the view can reach *)

Lemma focus_step (sf : FocusEvent) (s : State) :
  wf s = true →
  step (DidFocusStackFrame sf) s
  = if bool_decide (D_onDidFocusStackFrame ∈ listening s)
    then if bodyVisible s
         then scheduled (if explicit sf then 0 else 400) s
         else with_needsRefresh true s
    else s.
Proof.
  intros Hwf. unfold step, dispatch. rewrite whenListening_exec.
  case_bool_decide; [|done].
  unfold VariablesView.onDidFocusStackFrame. rewrite exec_gets.
  destruct (bodyVisible s); simpl; [|done].
  rewrite schedule_exec by done. by destruct (explicit sf).
Qed.

Lemma visibility_step (visible : bool) (s : State) :
  wf s = true →
  step (DidChangeBodyVisibility visible) s
  = if bool_decide (D_onDidChangeBodyVisibility ∈ listening s)
       && visible && needsRefresh s
    then scheduled 400 (with_bodyVisible visible s)
    else with_bodyVisible visible s.
Proof.
  intros Hwf. unfold step, dispatch.
  rewrite exec_modify, whenListening_exec. simpl.
  case_bool_decide; simpl; [|done].
  unfold VariablesView.onDidChangeBodyVisibility. rewrite exec_gets. simpl.
  destruct (visible && needsRefresh s); [|done].
  rewrite schedule_exec; [done|].
  by rewrite (wf_sameScheduling s (with_bodyVisible visible s)).
Qed.

Lemma endSession_step (s : State) :
  step DidEndSession s
  = if bool_decide (D_onDidEndSession ∈ listening s)
    then with_autoExpandedScopes ∅ (with_savedViewState ∅ s)
    else s.
Proof.
  unfold step, dispatch. rewrite whenListening_exec.
  by case_bool_decide.
Qed.

(** The selection listener changes the options and the calls of the tree
    and what it remembers, and nothing else. *)
Lemma select_frame (e : option SelectEvent) (s : State) :
  let s' := step (DidSelectExpression e) s in
  updateTreeScheduler s' = updateTreeScheduler s ∧ timers s' = timers s
  ∧ runs s' = runs s ∧ store s' = store s ∧ listening s' = listening s
  ∧ needsRefresh s' = needsRefresh s ∧ bodyVisible s' = bodyVisible s
  ∧ savedViewState s' = savedViewState s
  ∧ autoExpandedScopes s' = autoExpandedScopes s
  ∧ input (tree s') = input (tree s) ∧ nodes (tree s') = nodes (tree s)
  ∧ expandedNodes (tree s') = expandedNodes (tree s)
  ∧ scrollTop (tree s') = scrollTop (tree s).
Proof.
  simpl. unfold step, dispatch. rewrite whenListening_exec.
  case_bool_decide; [|done].
  destruct e as [ev|].
  - destruct (WorkbenchAsyncDataTree.hasNode (expression ev) (tree s)) eqn:Hnode.
    + rewrite select_present_exec by done. simpl.
      by destruct (from_option id false _).
    + unfold VariablesView.onDidSelectExpression, tree_hasNode.
      run_monad. by rewrite Hnode.
  - rewrite select_cleared_exec. by destruct (horizontalScrolling s).
Qed.

Lemma dispose_alive (s : State) :
  Alive s →
  step Dispose s = with_store [] (with_treeDisposed true (with_listening [] s)).
Proof.
  intros [Hl Hst].
  destruct s as [sch nr tr sv ae hs bv st li td tm n]. simpl in *. subst.
  by vm_compute.
Qed.

Lemma dispose_disposed (s : State) : Disposed s → step Dispose s = s.
Proof.
  intros [Hl Hst].
  destruct s as [sch nr tr sv ae hs bv st li td tm n]. simpl in *. by subst.
Qed.

Lemma Alive_listening (s : State) : Alive s → listening s ≠ [].
Proof. by intros [-> _]. Qed.

Lemma Alive_rendered treeOptions focused scopes :
  Alive (rendered treeOptions focused scopes).
Proof. done. Qed.

(** What holds in every state that the view can reach: the scheduler and
    its timer agree, the view has all its listeners or none, and a visible
    view with all its listeners that needs a refresh has one pending. *)
Lemma Reachable_facts (s : State) :
  Reachable s →
  wf s = true ∧ (Alive s ∨ Disposed s) ∧ (Alive s → RefreshOwed s).
Proof.
  intros (treeOptions & focused & scopes & evs & ->).
  induction evs as [|ev evs IH] using rev_ind.
  { split; [done|]. split; [left; apply Alive_rendered|]. by intros _ _ ?. }
  unfold run in *. rewrite foldl_snoc.
  set (s := foldl (λ s ev, step ev s) (rendered treeOptions focused scopes) evs)
    in *.
  destruct IH as (Hwf & Hlife & Howed).
  assert (wf (step ev s) = true) as Hwf'.
  { assert (Reachable s) as HR by (by exists treeOptions, focused, scopes, evs).
    apply (Reachable_Inv _ (Reachable_step ev s HR)). }
  split; [done|].
  destruct ev as [sf|visible|e| |ms env|].
  - rewrite focus_step by done.
    destruct Hlife as [[Hl Hst]|[Hl Hst]].
    + rewrite Hl. simpl. destruct (bodyVisible s) eqn:Hvis.
      * split; [by left|]. by intros _ _ _.
      * split; [by left|]. intros _ Hvis'. simpl in Hvis'. congruence.
    + rewrite Hl. simpl. split; [by right|].
      by intros Ha%Alive_listening.
  - rewrite visibility_step by done.
    destruct Hlife as [[Hl Hst]|[Hl Hst]].
    + rewrite Hl. simpl. destruct visible, (needsRefresh s) eqn:Hflag; simpl.
      * split; [by left|]. by intros _ _ _.
      * split; [by left|]. intros _ _ Hflag'. simpl in Hflag'. congruence.
      * split; [by left|]. by intros _ Hvis'.
      * split; [by left|]. by intros _ Hvis'.
    + rewrite Hl. simpl. split; [by right|].
      by intros Ha%Alive_listening.
  - destruct (select_frame e s)
      as (_ & Ht & _ & Hst & Hl & Hflag & Hvis & _). simpl in *.
    unfold Alive, Disposed, RefreshOwed. rewrite Ht, Hst, Hl, Hflag, Hvis.
    done.
  - rewrite endSession_step. by case_bool_decide.
  - rewrite elapse_exec by done.
    destruct (table (timers s)) as [|[tok d] rest] eqn:Htb; [done|].
    destruct (decide (d ≤ ms)).
    + destruct (wf_fired env s) as (_ & _ & _ & _ & Hl).
      unfold fired in *.
      destruct (updateTree_frame env
        (with_runs (S (runs s))
           (with_updateTreeScheduler (mkScheduler 400 None true)
              (with_timers (mkTimers (nextToken (timers s)) []) s))))
        as (_ & _ & _ & _ & _ & Hst & Hflag).
      unfold Alive, Disposed, RefreshOwed. rewrite Hl, Hst, Hflag.
      split; [done|]. by intros _ _ ?.
    + split; [done|]. by intros _ _ _.
  - destruct Hlife as [Ha|Hd].
    + rewrite dispose_alive by done. split; [by right|].
      by intros Ha'%Alive_listening.
    + rewrite dispose_disposed by done. split; [by right|].
      intros Ha%Alive_listening. by destruct Hd.
Qed.

(** X2: a refresh that was put off is not lost.  In every state that the
    view can reach, while the view still listens to visibility changes, a
    visible body with [needsRefresh] set has exactly one refresh pending. *)
Theorem no_lost_refresh (s : State) :
  Reachable s →
  D_onDidChangeBodyVisibility ∈ listening s →
  bodyVisible s = true → needsRefresh s = true →
  ∃ tok d, table (timers s) = [(tok, d)].
Proof.
  intros (Hwf & Hlife & Howed)%Reachable_facts Hlive Hvis Hflag.
  destruct Hlife as [Ha|[Hl _]]; [|rewrite Hl in Hlive; by apply elem_of_nil in Hlive].
  specialize (Howed Ha Hvis Hflag).
  pose proof (wf_table s Hwf) as Hlen.
  destruct (table (timers s)) as [|[tok d] [|]]; simpl in *; try done; [|lia].
  by exists tok, d.
Qed.

(** X3: once the view is disposed, its listeners are gone: focus changes,
    selections and the end of a session leave the state as it is, and a
    change of visibility changes nothing but the visibility. *)
Theorem disposed_view_ignores_events (s : State) :
  Reachable s →
  let s' := step Dispose s in
  listening s' = []
  ∧ (∀ sf, step (DidFocusStackFrame sf) s' = s')
  ∧ (∀ e, step (DidSelectExpression e) s' = s')
  ∧ step DidEndSession s' = s'
  ∧ (∀ visible, step (DidChangeBodyVisibility visible) s'
                = with_bodyVisible visible s')
  ∧ step Dispose s' = s'.
Proof.
  intros HR. simpl.
  destruct (Reachable_facts _ (Reachable_step Dispose s HR))
    as (Hwf & Hlife & _).
  assert (Disposed (step Dispose s)) as Hd.
  { destruct (Reachable_facts s HR) as (_ & [Ha|Hd] & _).
    - rewrite dispose_alive by done. by split.
    - by rewrite dispose_disposed. }
  destruct Hd as [Hl Hst]. split; [done|].
  split; [|split; [|split; [|split]]].
  - intros sf. by rewrite focus_step, Hl.
  - intros e. unfold step at 1, dispatch.
    by rewrite whenListening_exec, Hl.
  - by rewrite endSession_step, Hl.
  - intros visible. by rewrite visibility_step, Hl.
  - by apply dispose_disposed.
Qed.

Lemma disposeOne_tree (d : Disposable) (s : State) :
  tree (exec (VariablesView.disposeOne d) s) = tree s
  ∧ runs (exec (VariablesView.disposeOne d) s) = runs s.
Proof.
  destruct d; try done.
  unfold VariablesView.disposeOne, Scheduler.dispose, Scheduler.cancel,
    Scheduler.setToken.
  run_monad. by destruct (timeoutToken (updateTreeScheduler s)).
Qed.

Lemma forEach_dispose_tree (l : list Disposable) (s : State) :
  tree (exec (forEach l VariablesView.disposeOne) s) = tree s
  ∧ runs (exec (forEach l VariablesView.disposeOne) s) = runs s.
Proof.
  revert s. induction l as [|d l IH]; intros s; simpl; [done|].
  rewrite exec_seq.
  destruct (IH (exec (VariablesView.disposeOne d) s)) as [-> ->].
  apply disposeOne_tree.
Qed.

(** X4: the listeners for focus changes, visibility changes, selections and
    the end of a session, and the disposal of the view, do not refresh the
    tree themselves.  In every state that the view can reach, none of them,
    an explicit focus change included, starts a run of the refresh or
    changes the input, the elements, the expansion or the scroll position
    of the tree.  The listeners of [onWillUpdateViews],
    [onDidEvaluateLazyExpression] and [onDidChangeVisualization], which call
    [updateChildren] and [expand] on the tree, are not among them. *)
Theorem focus_and_visibility_do_not_refresh (s : State) :
  Reachable s →
  let untouched s' :=
    runs s' = runs s
    ∧ input (tree s') = input (tree s)
    ∧ nodes (tree s') = nodes (tree s)
    ∧ expandedNodes (tree s') = expandedNodes (tree s)
    ∧ scrollTop (tree s') = scrollTop (tree s) in
  (∀ sf, untouched (step (DidFocusStackFrame sf) s))
  ∧ (∀ visible, untouched (step (DidChangeBodyVisibility visible) s))
  ∧ (∀ e, untouched (step (DidSelectExpression e) s))
  ∧ untouched (step DidEndSession s)
  ∧ untouched (step Dispose s).
Proof.
  intros [Hwf _]%Reachable_Inv. simpl.
  split; [|split; [|split; [|split]]].
  - intros sf. rewrite focus_step by done.
    by destruct (bool_decide _), (bodyVisible s).
  - intros visible. rewrite visibility_step by done. by destruct (_ && _).
  - intros e. destruct (select_frame e s)
      as (_ & _ & Hr & _ & _ & _ & _ & _ & _ & Hi & Hn & He & Hs). done.
  - rewrite endSession_step. by destruct (bool_decide _).
  - unfold step, dispatch, VariablesView.dispose.
    rewrite exec_gets, exec_seq.
    destruct (forEach_dispose_tree (store s) s) as [Ht Hr].
    unfold modify, exec in *. simpl in *. by rewrite Ht, Hr.
Qed.

(** X5: hiding or showing the body does not cancel a pending refresh.
    After any change of visibility the refresh that was pending, or the one
    that replaced it, runs once its delay has passed, also while the body
    is hidden. *)
Theorem visibility_keeps_pending_refresh (s : State) (visible : bool)
  (tok d ms : nat) (env : Env) :
  Reachable s → table (timers s) = [(tok, d)] →
  d ≤ ms → 400 ≤ ms →
  runs (step (Elapse ms env) (step (DidChangeBodyVisibility visible) s))
  = S (runs s).
Proof.
  intros HR Htb Hd Hms. pose proof (Reachable_Inv s HR) as [Hwf _].
  pose proof (Reachable_Inv _ (Reachable_step (DidChangeBodyVisibility visible)
                                 s HR)) as [Hwf' _].
  rewrite elapse_exec by done.
  rewrite visibility_step in * by done.
  destruct (_ && _); simpl.
  - rewrite decide_True by done.
    by destruct (wf_fired env (scheduled 400 (with_bodyVisible visible s)))
      as (_ & _ & -> & _).
  - rewrite Htb, decide_True by done.
    by destruct (wf_fired env (with_bodyVisible visible s)) as (_ & _ & -> & _).
Qed.

(** ** The end of a session *)


(** ** Selecting twice *)

(** X7: what the selection listener remembers is overwritten by a second
    selection.  With horizontal scrolling on, one selection followed by
    clearing it turns scrolling on again, but two selections in a row
    followed by clearing leave it off. *)
Theorem repeated_selection_forgets_scrolling (s : State)
  (first second : SelectEvent) :
  WorkbenchAsyncDataTree.hasNode (expression first) (tree s) = true →
  WorkbenchAsyncDataTree.hasNode (expression second) (tree s) = true →
  options (tree s) !! "horizontalScrolling" = Some true →
  let select ev := exec (VariablesView.onDidSelectExpression (Some ev)) in
  let clear := exec (VariablesView.onDidSelectExpression None) in
  options (tree (clear (select first s))) !! "horizontalScrolling" = Some true
  ∧ options (tree (clear (select second (select first s))))
      !! "horizontalScrolling" = Some false
  ∧ horizontalScrolling (clear (select second (select first s))) = None.
Proof.
  intros Hfirst Hsecond Hopt. cbv zeta.
  set (s1 := exec (VariablesView.onDidSelectExpression (Some first)) s).
  assert (WorkbenchAsyncDataTree.hasNode (expression second) (tree s1) = true
          ∧ options (tree s1) !! "horizontalScrolling" = Some false
          ∧ horizontalScrolling s1 = Some true) as (Hnode1 & Hopt1 & Hrem1).
  { subst s1. rewrite select_present_exec by done. rewrite Hopt. simpl.
    repeat split; try done. by rewrite updateOptions_lookup, decide_True. }
  set (s2 := exec (VariablesView.onDidSelectExpression (Some second)) s1).
  assert (horizontalScrolling s2 = Some false) as Hrem2.
  { subst s2. rewrite select_present_exec by done. by rewrite Hopt1. }
  rewrite !select_cleared_exec, Hrem1, Hrem2. simpl.
  by rewrite !updateOptions_lookup, !decide_True.
Qed.

(** ** The context menu and the commands *)

(** X8: a data breakpoint that the context menu offers can be built.  When
    the context computed for the menu of a variable sets one of the three
    keys to true, a response with a non-empty data id is held; the key for
    reads or for accesses is only set when the response lists that access
    type, the key for changes when it lists writes or lists nothing; and
    each of the three commands then adds exactly one data breakpoint, with
    that data id. *)
Theorem offered_breakpoint_is_buildable (variable : TreeElement)
  (session : option IDebugSession) (parentReference : option nat)
  (g : Globals) (key : ContextKey) (keys : list (ContextKey * bool)) :
  let result :=
    getContextForVariableMenuWithDataAccess variable session parentReference g in
  result.1 = Some keys →
  (key, true) ∈ keys →
  ∃ response id,
    dataBreakpointInfoResponse result.2 = Some response
    ∧ dataId response = Some id ∧ id ≠ ""
    ∧ match key with
      | CONTEXT_BREAK_WHEN_VALUE_CHANGES_SUPPORTED =>
          accessTypes response = None
          ∨ ∃ types, accessTypes response = Some types ∧ AccessWrite ∈ types
      | CONTEXT_BREAK_WHEN_VALUE_IS_ACCESSED_SUPPORTED =>
          ∃ types, accessTypes response = Some types ∧ AccessReadWrite ∈ types
      | CONTEXT_BREAK_WHEN_VALUE_IS_READ_SUPPORTED =>
          ∃ types, accessTypes response = Some types ∧ AccessRead ∈ types
      end
    ∧ ∀ command,
        command ∈ [BREAK_WHEN_VALUE_CHANGES_ID; BREAK_WHEN_VALUE_IS_ACCESSED_ID;
                   BREAK_WHEN_VALUE_IS_READ_ID] →
        ∃ breakpoint,
          executeCommand command result.2 = Some [breakpoint]
          ∧ src_dataId (bp_src breakpoint) = Some id.
Proof.
  simpl. unfold getContextForVariableMenuWithDataAccess.
  destruct session as [session|]; simpl;
    [|by intros [= <-] ?%elem_of_nil].
  destruct (supportsDataBreakpoints session); simpl;
    [|by intros [= <-] ?%elem_of_nil].
  destruct (dataBreakpointInfo session (name variable) parentReference)
    as [|[[[id|] descr persist types]|]] eqn:Hinfo; simpl; [done|..].
  - intros [= <-] Hkey.
    assert (id ≠ "" ∧
      match key with
      | CONTEXT_BREAK_WHEN_VALUE_CHANGES_SUPPORTED =>
          types = None ∨ ∃ l, types = Some l ∧ AccessWrite ∈ l
      | CONTEXT_BREAK_WHEN_VALUE_IS_ACCESSED_SUPPORTED =>
          ∃ l, types = Some l ∧ AccessReadWrite ∈ l
      | CONTEXT_BREAK_WHEN_VALUE_IS_READ_SUPPORTED =>
          ∃ l, types = Some l ∧ AccessRead ∈ l
      end) as [Hid Htypes].
    { destruct types as [l|].
      - apply list_elem_of_fmap in Hkey as (accessType & Heq & Hin).
        destruct accessType; injection Heq as -> Hid;
          (split; [intros ->; by vm_compute in Hid|]); eauto.
      - apply list_elem_of_singleton in Hkey. injection Hkey as -> Hid.
        split; [intros ->; by vm_compute in Hid|]. by left. }
    exists (mkInfoResponse (Some id) descr persist types), id.
    repeat split; try done.
    intros command Hcommand. unfold executeCommand.
    repeat (apply elem_of_cons in Hcommand as [->|Hcommand]);
      [| | |by apply elem_of_nil in Hcommand]; by eexists.
  - intros [= <-] Hkey. exfalso. destruct types as [l|].
    + apply list_elem_of_fmap in Hkey as (accessType & Heq & _).
      by destruct accessType.
    + by apply list_elem_of_singleton in Hkey.
  - intros [= <-] Hkey. by apply list_elem_of_singleton in Hkey.
Qed.

(** X9: when the session supports data breakpoints but gives no answer for
    the variable, the response held before is dropped: the menu gets the key
    for changes only, set to false, and none of the three commands adds a
    data breakpoint afterwards. *)
Theorem no_breakpoint_info_clears_response (variable : TreeElement)
  (session : IDebugSession) (parentReference : option nat) (g : Globals) :
  supportsDataBreakpoints session = true →
  dataBreakpointInfo session (name variable) parentReference
  = InfoResolved None →
  let result :=
    getContextForVariableMenuWithDataAccess variable (Some session)
      parentReference g in
  result.1 = Some [(CONTEXT_BREAK_WHEN_VALUE_CHANGES_SUPPORTED, false)]
  ∧ executeCommand BREAK_WHEN_VALUE_CHANGES_ID result.2 = Some []
  ∧ executeCommand BREAK_WHEN_VALUE_IS_ACCESSED_ID result.2 = Some []
  ∧ executeCommand BREAK_WHEN_VALUE_IS_READ_ID result.2 = Some [].
Proof.
  intros Hcap Hinfo. simpl. unfold getContextForVariableMenuWithDataAccess.
  by rewrite Hcap, Hinfo.
Qed.

(** X10: [debug.setVariable] selects the variable that was last handed to
    [getContextForVariableMenuBase]: the one whose context menu was opened
    last, unless its request for the data breakpoint info was rejected, or
    whose action bar was rendered last.  A context menu whose request is
    rejected, or one requested on anything but a variable with a value,
    leaves the variables of the module, and so the target, as they were;
    with no target the command clears the selection. *)
Theorem set_variable_targets_last_context
  (membersOf : TreeElement → ExpressionMembers) (g : Globals) :
  (∀ variable session parentReference,
     cls variable = C_Variable → value variable ≠ "" →
     (∀ sess, session = Some sess → supportsDataBreakpoints sess = true →
              dataBreakpointInfo sess (name variable) parentReference
              ≠ InfoRejected) →
     setVariableCommand
       (openContextMenuForVariableTreeElement (Some variable) session
          parentReference g)
     = [Some (mkSelectEvent variable false)])
  ∧ (∀ variable sess parentReference,
       supportsDataBreakpoints sess = true →
       dataBreakpointInfo sess (name variable) parentReference = InfoRejected →
       openContextMenuForVariableTreeElement (Some variable) (Some sess)
         parentReference g = g)
  ∧ (∀ element session parentReference,
       (∀ variable, element = Some variable →
                    cls variable ≠ C_Variable ∨ value variable = "") →
       openContextMenuForVariableTreeElement element session parentReference g
       = g)
  ∧ (∀ variable first,
       setVariableCommand
         (renderActionBar_variable variable
            (renderActionBar_variable first g))
       = [Some (mkSelectEvent variable false)])
  ∧ (∀ viz o, original (membersOf viz) = Some o →
       setVariableCommand (renderActionBar_visualized membersOf viz g)
       = [Some (mkSelectEvent o false)])
  ∧ (∀ viz, original (membersOf viz) = None →
       renderActionBar_visualized membersOf viz g = g)
  ∧ setVariableCommand initialGlobals = [None].
Proof.
  split; [|split; [|split; [|split; [|split; [|split]]]]]; try done.
  - intros variable session parentReference Hcls Hvalue Hanswers.
    unfold openContextMenuForVariableTreeElement,
      getContextForVariableMenuWithDataAccess.
    rewrite Hcls, (proj2 (String.eqb_neq _ _)) by done. simpl.
    destruct session as [sess|]; [|done].
    destruct (supportsDataBreakpoints sess) eqn:Hcap; [|done]. simpl.
    specialize (Hanswers sess eq_refl Hcap).
    by destruct (dataBreakpointInfo sess (name variable) parentReference).
  - intros variable sess parentReference Hcap Hrejected.
    by apply menu_with_rejected_request.
  - intros [variable|] session parentReference Hguard; [|done].
    unfold openContextMenuForVariableTreeElement.
    destruct (Hguard variable eq_refl) as [Hcls| ->].
    + by destruct (cls variable).
    + by rewrite orb_true_r.
  - intros viz o Ho. unfold renderActionBar_visualized. by rewrite Ho.
  - intros viz Ho. unfold renderActionBar_visualized. by rewrite Ho.
Qed.

(** ** Editing a value *)

(** X11: an edit keeps the scopes once.  After a variable was set to a new
    value, the views are updated without [forgetScopes()] on the focused
    frame, whatever the flag was before, and the flag is true again
    afterwards, so that the next update of the views forgets the scopes of
    the focused frame. *)
Theorem edit_keeps_scopes_once (variable : TreeElement) (frame : IStackFrame)
  (newValue : string) (g : Globals) :
  value variable ≠ newValue →
  let result := onFinish_variable variable (Some frame) newValue true g in
  result.1 = [ClearErrorMessage (getId variable);
              SetVariable (getId variable) newValue (sf_getId frame);
              UpdateChildren]
  ∧ forgetScopes result.2 = true
  ∧ (onWillUpdateViews (Some frame) result.2).1
    = [ForgetScopes (sf_getId frame); UpdateChildren]
  ∧ forgetScopes (onWillUpdateViews (Some frame) result.2).2 = true.
Proof.
  intros Hvalue. simpl. unfold onFinish_variable.
  by rewrite (proj2 (String.eqb_neq _ _)).
Qed.

(** X12: finishing the input box of a variable sends [setVariable] for a
    real change and only then.  When the input was cancelled, when the value
    typed is the value the variable has, or when no frame is focused, only
    the error message is cleared and the views are not updated; otherwise
    [setVariable] is sent with the value typed, for the focused frame, and
    the views are updated.  The input box of a visualized expression sends
    the edit with the value typed whenever it succeeds, for every value,
    the unchanged one included, and with or without a focused frame; when
    it was cancelled it only clears the error message. *)
Theorem variable_edit_needs_a_change (variable viz : TreeElement)
  (focused : option IStackFrame) (newValue : string) (success : bool)
  (g : Globals) :
  let updated :=
    mkGlobals true (variableInternalContext g) (dataBreakpointInfoResponse g) in
  (success = false ∨ value variable = newValue ∨ focused = None →
   onFinish_variable variable focused newValue success g
   = ([ClearErrorMessage (getId variable)], g))
  ∧ (∀ frame, success = true → value variable ≠ newValue →
       focused = Some frame →
       onFinish_variable variable focused newValue success g
       = ([ClearErrorMessage (getId variable);
           SetVariable (getId variable) newValue (sf_getId frame);
           UpdateChildren],
          updated))
  ∧ onFinish_visualized viz focused newValue true g
    = ([ClearErrorMessage (getId viz); VisualizerEdit (getId viz) newValue;
        UpdateChildren],
       updated)
  ∧ onFinish_visualized viz focused newValue false g
    = ([ClearErrorMessage (getId viz)], g).
Proof.
  simpl. split; [|split; [|split]].
  - intros Hcase. unfold onFinish_variable.
    destruct focused as [frame|]; [|done].
    destruct Hcase as [->|[->|?]]; try done.
    by rewrite String.eqb_refl, andb_false_r.
  - intros frame -> Hvalue ->. unfold onFinish_variable.
    by rewrite (proj2 (String.eqb_neq _ _)).
  - unfold onFinish_visualized, afterEdit, onWillUpdateViews. simpl.
    by destruct focused.
  - done.
Qed.

(** ** Copying a value *)

Lemma promiseAll_rejected (outcomes : list EvalOutcome) :
  Rejected ∈ outcomes → promiseAll outcomes = None.
Proof.
  induction outcomes as [|[|r] rest IH]; csimpl.
  - by intros ?%elem_of_nil.
  - done.
  - intros [?|Hin]%elem_of_cons; [done|]. by rewrite IH.
Qed.



(** X13: the command to copy a value leaves the clipboard alone when there
    is nothing to copy: without a focused frame or a focused session, for a
    variable or an expression that comes without a list of elements, and
    for the context of a menu when no variable was handed to a menu
    before. *)
Theorem copy_value_nothing_to_copy
  (membersOf : TreeElement → ExpressionMembers) (arg : CommandArg)
  (ctx : option (list TreeElement)) (g : Globals) (frameId : option nat)
  (session : option EvalSession) :
  (frameId = None ∨ session = None →
   copyValue membersOf arg ctx g frameId session = None)
  ∧ (isVariableOrExpression arg = true →
     copyValue membersOf arg None g frameId session = None)
  ∧ (isVariableOrExpression arg = false → variableInternalContext g = None →
     copyValue membersOf arg ctx g frameId session = None).
Proof.
  unfold copyValue, copyElements. repeat split.
  - intros [-> | ->]; [done|]. by destruct frameId.
  - intros ->. by destruct frameId, session.
  - intros -> ->. by destruct frameId, session.
Qed.

(** X14: when one of the evaluations fails, the command copies the values
    that the elements show, one per line, whatever the other evaluations
    gave. *)
Theorem copy_value_falls_back_to_values
  (membersOf : TreeElement → ExpressionMembers) (arg : CommandArg)
  (ctx : option (list TreeElement)) (g : Globals) (frameId : nat)
  (session : EvalSession) (failing : TreeElement) :
  failing ∈ copyElements arg ctx g →
  evaluate session (expressionToEvaluate membersOf failing) frameId
    (copyEvalContext session arg) = Rejected →
  copyValue membersOf arg ctx g (Some frameId) (Some session)
  = Some (String.concat newline (value <$> copyElements arg ctx g)).
Proof.
  intros Hin Hrejected. unfold copyValue.
  rewrite bool_decide_false.
  2:{ destruct (copyElements arg ctx g); [by apply elem_of_nil in Hin|done]. }
  rewrite promiseAll_rejected; [done|].
  rewrite <- list_fmap_compose. apply list_elem_of_fmap.
  exists failing. by rewrite <- Hrejected.
Qed.


(** ** Viewing memory *)

(** X16: the command to view memory, effect by effect.  Asked for a memory
    reference of a session, it installs the hex editor exactly when it is
    missing; if the hex editor is there, or was just installed, it sends
    the telemetry event for the session and then opens the hex editor on
    the reference; if the installation fails, it notifies the error after
    the attempt and does nothing more.  Asked for nothing, because the
    session id or the memory reference is missing or empty or no session is
    focused, it does nothing.  So it opens the hex editor only for a memory
    reference that is not empty, after the telemetry event, and never when
    the installation failed. *)
Theorem view_memory_effects (membersOf : TreeElement → ExpressionMembers)
  (env : MemoryEnv) (arg : CommandArg) :
  let effects := viewMemory membersOf env arg in
  (∀ session reference,
     memoryTarget membersOf env arg session reference →
     effects
     = (if hexEditorInstalled env then []
        else if installSucceeds env then [Install HEX_EDITOR_EXTENSION_ID]
        else [Install HEX_EDITOR_EXTENSION_ID; NotifyError])
       ++ (if hexEditorInstalled env || installSucceeds env
           then [PublicLog "debug/didViewMemory" session;
                 OpenEditor session reference HEX_EDITOR_EDITOR_ID]
           else []))
  ∧ ((∀ session reference,
        ¬ memoryTarget membersOf env arg session reference) →
     effects = [])
  ∧ (∀ session reference editor,
     OpenEditor session reference editor ∈ effects →
     reference ≠ "" ∧ editor = HEX_EDITOR_EDITOR_ID
     ∧ (hexEditorInstalled env = true ∨ installSucceeds env = true)
     ∧ PublicLog "debug/didViewMemory" session ∈ effects
     ∧ match arg with
       | ArgContext c =>
           sessionId c = Some session ∧ session ≠ ""
           ∧ variable_memoryReference c = Some reference
       | ArgElement e =>
           focusedSessionId env = Some session
           ∧ memoryReference (membersOf e) = Some reference
       end)
  ∧ (∀ extension, Install extension ∈ effects →
       hexEditorInstalled env = false ∧ extension = HEX_EDITOR_EXTENSION_ID)
  ∧ (NotifyError ∈ effects →
       hexEditorInstalled env = false ∧ installSucceeds env = false
       ∧ ∀ session reference editor,
           OpenEditor session reference editor ∉ effects).
Proof.
  simpl. split; [|split].
  { intros session reference Htarget.
    unfold viewMemory, tryInstallHexEditor, truthy, memoryTarget in *.
    destruct env as [focused installed succeeds].
    destruct arg as [e|[sid ename mref]]; simpl in *.
    - destruct Htarget as (-> & Href & ->).
      rewrite (proj2 (String.eqb_neq _ _)) by done. simpl.
      by destruct installed, succeeds.
    - destruct Htarget as (-> & Hsid & -> & Href).
      rewrite !(proj2 (String.eqb_neq _ _)) by done. simpl.
      by destruct installed, succeeds. }
  { intros Hnone.
    unfold viewMemory, tryInstallHexEditor, truthy, memoryTarget in *.
    destruct env as [focused installed succeeds].
    destruct arg as [e|[sid ename mref]]; simpl in *.
    - destruct (memoryReference (membersOf e)) as [ref|]; simpl; [|done].
      destruct (String.eqb ref "") eqn:Href; simpl; [done|].
      apply String.eqb_neq in Href.
      destruct focused as [fid|]; [|done].
      by destruct (Hnone fid ref).
    - destruct sid as [sid|]; simpl; [|done].
      destruct (String.eqb sid "") eqn:Hsid; simpl; [done|].
      apply String.eqb_neq in Hsid.
      destruct mref as [ref|]; simpl; [|done].
      destruct (String.eqb ref "") eqn:Href; simpl; [done|].
      apply String.eqb_neq in Href.
      by destruct (Hnone sid ref). }
  unfold viewMemory, tryInstallHexEditor, truthy.
  destruct env as [focused installed succeeds].
  destruct arg as [e|[sid ename mref]]; simpl.
  - destruct (memoryReference (membersOf e)) as [ref|]; simpl;
      [|by repeat split; intros; exfalso; eapply elem_of_nil].
    destruct (String.eqb ref "") eqn:Href; simpl;
      [by repeat split; intros; exfalso; eapply elem_of_nil|].
    apply String.eqb_neq in Href.
    destruct focused as [fid|]; simpl;
      [|by repeat split; intros; exfalso; eapply elem_of_nil].
    destruct installed, succeeds; simpl;
      repeat split; intros;
      repeat match goal with
             | H : _ ∈ _ :: _ |- _ => apply elem_of_cons in H as [H|H]
             | H : _ ∈ [] |- _ => by apply elem_of_nil in H
             | H : OpenEditor _ _ _ = OpenEditor _ _ _ |- _ =>
                 injection H as -> -> ->
             | H : Install _ = Install _ |- _ => injection H as ->
             end; try done; try (by left); try (by right);
      try (rewrite !elem_of_cons; by eauto).
    all: rewrite !elem_of_cons, elem_of_nil; naive_solver.
  - destruct sid as [sid|]; simpl;
      [|by repeat split; intros; exfalso; eapply elem_of_nil].
    destruct (String.eqb sid "") eqn:Hsid; simpl;
      [by repeat split; intros; exfalso; eapply elem_of_nil|].
    apply String.eqb_neq in Hsid.
    destruct mref as [ref|]; simpl;
      [|by repeat split; intros; exfalso; eapply elem_of_nil].
    destruct (String.eqb ref "") eqn:Href; simpl;
      [by repeat split; intros; exfalso; eapply elem_of_nil|].
    apply String.eqb_neq in Href.
    destruct installed, succeeds; simpl;
      repeat split; intros;
      repeat match goal with
             | H : _ ∈ _ :: _ |- _ => apply elem_of_cons in H as [H|H]
             | H : _ ∈ [] |- _ => by apply elem_of_nil in H
             | H : OpenEditor _ _ _ = OpenEditor _ _ _ |- _ =>
                 injection H as -> -> ->
             | H : Install _ = Install _ |- _ => injection H as ->
             end; try done; try (by left); try (by right);
      try (rewrite !elem_of_cons; by eauto).
    all: rewrite !elem_of_cons, elem_of_nil; naive_solver.
Qed.

(** ** Double click *)

(** X17: a double click starts the edit of editable expressions only.  The
    only event it can fire selects the element clicked, and then a session
    is focused and the element is a visualized expression that can be
    edited, or a variable that is neither read-only nor lazy; it never
    selects a scope and never clears the selection. *)
Theorem double_click_selects_only_editable
  (membersOf : TreeElement → ExpressionMembers)
  (focusedSession : option IDebugSession) (e : option TreeElement)
  (fired : option SelectEvent) :
  fired ∈ onMouseDblClick membersOf focusedSession e →
  ∃ x,
    e = Some x ∧ fired = Some (mkSelectEvent x false)
    ∧ is_Some focusedSession
    ∧ ((cls x = C_VisualizedExpression
        ∧ treeItem_canEdit (membersOf x) = Some true)
       ∨ (cls x = C_Variable
          ∧ (∀ hint attrs,
               presentationHint (membersOf x) = Some hint →
               hint_attributes hint = Some attrs → "readOnly" ∉ attrs)
          ∧ (∀ hint, presentationHint (membersOf x) = Some hint →
                     hint_lazy hint ≠ Some true))).
Proof.
  unfold onMouseDblClick, canSetExpressionValue.
  destruct focusedSession as [session|]; [|by intros ?%elem_of_nil].
  destruct e as [x|]; [|by intros ?%elem_of_nil].
  destruct (instanceof (cls x) C_VisualizedExpression) eqn:Hviz.
  - destruct (treeItem_canEdit (membersOf x)) as [[]|] eqn:Hedit; simpl;
      try by intros ?%elem_of_nil.
    intros ->%list_elem_of_singleton. exists x.
    repeat split; [by eexists|left]. split; [|done].
    by destruct (cls x).
  - destruct (instanceof (cls x) C_Variable) eqn:Hvar; simpl;
      [|by intros ?%elem_of_nil].
    destruct (presentationHint (membersOf x)) as [[attrs lazy']|] eqn:Hhint;
      simpl.
    + destruct attrs as [attrs|]; simpl.
      * case_bool_decide as Hro; simpl; [by intros ?%elem_of_nil|].
        destruct lazy' as [[]|]; simpl; try by intros ?%elem_of_nil.
        all: intros ->%list_elem_of_singleton; exists x;
          repeat split; [by eexists|right];
          (split; [by destruct (cls x)|]);
          split; intros; by simplify_eq/=.
      * destruct lazy' as [[]|]; simpl; try by intros ?%elem_of_nil.
        all: intros ->%list_elem_of_singleton; exists x;
          repeat split; [by eexists|right];
          (split; [by destruct (cls x)|]);
          split; intros; by simplify_eq/=.
    + intros ->%list_elem_of_singleton. exists x.
      repeat split; [by eexists|right]. split; [by destruct (cls x)|].
      split; intros; congruence.
Qed.

(** ** Labels for screen readers *)

(** X18: the label for screen readers goes with the template of the row.
    A row drawn with the template of scopes or of scope errors is announced
    as a scope with its name; a row drawn with the template of visualized
    expressions has no label; and a row without a label is never a scope
    nor a variable. *)
Theorem aria_label_goes_with_template (element : TreeElement) :
  (VariablesDelegate.getTemplateId element = ScopesRenderer.ID
   ∨ VariablesDelegate.getTemplateId element = ScopeErrorRenderer.ID →
   getAriaLabel element = Some ("Scope " +:+ name element))
  ∧ (VariablesDelegate.getTemplateId element = VisualizedVariableRenderer.ID →
     getAriaLabel element = None)
  ∧ (getAriaLabel element = None →
     cls element ≠ C_Scope ∧ cls element ≠ C_ErrorScope
     ∧ cls element ≠ C_Variable)
  ∧ (cls element = C_Variable →
     getAriaLabel element
     = Some (name element +:+ ", value " +:+ value element)).
Proof.
  unfold VariablesDelegate.getTemplateId, getAriaLabel.
  destruct element as [[] i n v x h c]; simpl; repeat split; try done;
    by intros [?|?].
Qed.

(** ** How often the refresh runs *)

(** X19: the refresh never runs more often than it was asked for.  From
    [renderBody] on, whatever happens, the number of runs of the refresh
    plus the one that may be pending is at most the number of focus changes
    and of times the body became visible. *)
Theorem refreshes_bounded_by_events (treeOptions : gmap string bool)
  (focused : option IStackFrame) (scopes : list TreeElement)
  (evs : list Event) :
  let s := run evs (rendered treeOptions focused scopes) in
  runs s + length (table (timers s))
  ≤ length (filter (λ ev, canSchedule ev = true) evs).
Proof.
  simpl. induction evs as [|ev evs IH] using rev_ind; [done|].
  assert (Reachable (run evs (rendered treeOptions focused scopes))) as HR
    by (by exists treeOptions, focused, scopes, evs).
  pose proof (Reachable_Inv _ HR) as [Hwf _].
  pose proof (wf_table _ Hwf) as Hone.
  unfold run in *. rewrite foldl_snoc, filter_app, length_app.
  set (s := foldl (λ s ev, step ev s) (rendered treeOptions focused scopes) evs)
    in *.
  destruct ev as [sf|visible|e| |ms env|].
  - rewrite focus_step by done. rewrite filter_cons_True by done. simpl.
    destruct (bool_decide _), (bodyVisible s); simpl; lia.
  - rewrite visibility_step by done.
    destruct visible.
    + rewrite filter_cons_True by done. simpl.
      destruct (_ && _); simpl; lia.
    + rewrite filter_cons_False by done. rewrite andb_false_r. simpl. lia.
  - rewrite filter_cons_False by done.
    destruct (select_frame e s) as (_ & Ht & Hr & _). simpl in *.
    rewrite Ht, Hr. simpl. lia.
  - rewrite filter_cons_False by done. rewrite endSession_step.
    destruct (bool_decide _); simpl; lia.
  - rewrite filter_cons_False by done. rewrite elapse_exec by done.
    destruct (table (timers s)) as [|[tok d] rest] eqn:Htb; simpl in *;
      [rewrite Htb; simpl; lia|].
    destruct (decide (d ≤ ms)).
    + destruct (wf_fired env s) as (_ & -> & -> & _). simpl. lia.
    + simpl. lia.
  - rewrite filter_cons_False by done.
    destruct (dispose_exec s) as (_ & Ht & Hr & _);
      [by apply (Reachable_Inv _ HR)|].
    rewrite Ht, Hr. simpl. lia.
Qed.

(** ** The further properties on the sample data *)

Lemma Reachable_owed : Reachable owed.
Proof. do 2 apply Reachable_step. apply Reachable_hidden. Qed.

Lemma Reachable_pending : Reachable pending.
Proof. apply Reachable_step, Reachable_shown. Qed.

Lemma no_lost_refresh_witness :
  D_onDidChangeBodyVisibility ∈ listening owed
  ∧ bodyVisible owed = true ∧ needsRefresh owed = true
  ∧ ∃ tok d, table (timers owed) = [(tok, d)].
Proof.
  assert (D_onDidChangeBodyVisibility ∈ listening owed) as Hlive
    by (apply (bool_decide_unpack _); vm_compute; exact I).
  split; [exact Hlive|]. split; [reflexivity|]. split; [reflexivity|].
  exact (no_lost_refresh owed Reachable_owed Hlive eq_refl eq_refl).
Defined.


Lemma repeated_selection_forgets_scrolling_witness :
  let select ev := exec (VariablesView.onDidSelectExpression (Some ev)) in
  let clear := exec (VariablesView.onDidSelectExpression None) in
  let first := mkSelectEvent variableX false in
  let second := mkSelectEvent scopeLocals false in
  WorkbenchAsyncDataTree.hasNode variableX (tree shown) = true
  ∧ WorkbenchAsyncDataTree.hasNode scopeLocals (tree shown) = true
  ∧ options (tree shown) !! "horizontalScrolling" = Some true
  ∧ options (tree (clear (select second (select first shown))))
      !! "horizontalScrolling" = Some false.
Proof.
  assert (WorkbenchAsyncDataTree.hasNode variableX (tree shown) = true)
    as Hfirst by (vm_compute; reflexivity).
  assert (WorkbenchAsyncDataTree.hasNode scopeLocals (tree shown) = true)
    as Hsecond by (vm_compute; reflexivity).
  assert (options (tree shown) !! "horizontalScrolling" = Some true)
    as Hopt by (vm_compute; reflexivity).
  split; [exact Hfirst|]. split; [exact Hsecond|]. split; [exact Hopt|].
  destruct (repeated_selection_forgets_scrolling shown
              (mkSelectEvent variableX false) (mkSelectEvent scopeLocals false)
              Hfirst Hsecond Hopt) as (_ & Htwice & _).
  exact Htwice.
Defined.

Lemma offered_breakpoint_is_buildable_witness :
  let result :=
    getContextForVariableMenuWithDataAccess variableX
      (Some sessionWithAccessTypes) (Some 7) initialGlobals in
  result.1 = Some [(CONTEXT_BREAK_WHEN_VALUE_IS_READ_SUPPORTED, true);
                   (CONTEXT_BREAK_WHEN_VALUE_IS_ACCESSED_SUPPORTED, true)]
  ∧ ∃ response id,
      dataBreakpointInfoResponse result.2 = Some response
      ∧ dataId response = Some id ∧ id ≠ ""
      ∧ ∃ types, accessTypes response = Some types ∧ AccessRead ∈ types.
Proof.
  split; [reflexivity|].
  assert ((CONTEXT_BREAK_WHEN_VALUE_IS_READ_SUPPORTED, true)
            ∈ [(CONTEXT_BREAK_WHEN_VALUE_IS_READ_SUPPORTED, true);
               (CONTEXT_BREAK_WHEN_VALUE_IS_ACCESSED_SUPPORTED, true)]) as Hkey
    by (apply list_elem_of_In; simpl; tauto).
  destruct (offered_breakpoint_is_buildable variableX
              (Some sessionWithAccessTypes) (Some 7) initialGlobals
              CONTEXT_BREAK_WHEN_VALUE_IS_READ_SUPPORTED _ eq_refl Hkey)
    as (response & id & Hresponse & Hid & Hne & Htypes & _).
  exists response, id. repeat split; assumption.
Defined.

Lemma no_breakpoint_info_clears_response_witness :
  let session := mkSession true (λ _ _, InfoResolved None) in
  let held := mkGlobals true None
                (Some (mkInfoResponse (Some "data:x") "x" None None)) in
  supportsDataBreakpoints session = true
  ∧ executeCommand BREAK_WHEN_VALUE_CHANGES_ID held ≠ Some []
  ∧ executeCommand BREAK_WHEN_VALUE_CHANGES_ID
      (getContextForVariableMenuWithDataAccess variableX (Some session)
         (Some 7) held).2 = Some [].
Proof.
  split; [reflexivity|]. split; [discriminate|].
  destruct (no_breakpoint_info_clears_response variableX
              (mkSession true (λ _ _, InfoResolved None)) (Some 7)
              (mkGlobals true None
                 (Some (mkInfoResponse (Some "data:x") "x" None None)))
              eq_refl eq_refl) as (_ & Hchanges & _).
  exact Hchanges.
Defined.

Lemma set_variable_targets_last_context_witness :
  let afterX :=
    openContextMenuForVariableTreeElement (Some variableX)
      (Some sessionWithDataBreakpoints) (Some 7) initialGlobals in
  cls variableX = C_Variable ∧ value variableX ≠ ""
  ∧ setVariableCommand afterX = [Some (mkSelectEvent variableX false)]
  ∧ setVariableCommand
      (openContextMenuForVariableTreeElement (Some variablePi)
         (Some rejectingDataSession) (Some 7) afterX)
    = [Some (mkSelectEvent variableX false)]
  ∧ openContextMenuForVariableTreeElement (Some scopeLocals)
      (Some sessionWithDataBreakpoints) None initialGlobals = initialGlobals.
Proof.
  assert (value variableX ≠ "") as Hvalue by discriminate.
  destruct (set_variable_targets_last_context sampleMembers initialGlobals)
    as (Hmenu & _ & Hguard & _).
  assert (setVariableCommand
            (openContextMenuForVariableTreeElement (Some variableX)
               (Some sessionWithDataBreakpoints) (Some 7) initialGlobals)
          = [Some (mkSelectEvent variableX false)]) as HafterX.
  { apply (Hmenu variableX (Some sessionWithDataBreakpoints) (Some 7)
             eq_refl Hvalue).
    intros sess [= <-] _. discriminate. }
  split; [reflexivity|]. split; [exact Hvalue|]. split; [exact HafterX|]. split.
  - destruct (set_variable_targets_last_context sampleMembers
                (openContextMenuForVariableTreeElement (Some variableX)
                   (Some sessionWithDataBreakpoints) (Some 7) initialGlobals))
      as (_ & Hrejected & _).
    rewrite (Hrejected variablePi rejectingDataSession (Some 7) eq_refl eq_refl).
    exact HafterX.
  - apply Hguard. intros variable [= <-]. left. discriminate.
Defined.

Lemma edit_keeps_scopes_once_witness :
  let stale := mkGlobals false None None in
  let result := onFinish_variable variableX (Some frameMain) "43" true stale in
  value variableX ≠ "43"
  ∧ (ForgetScopes (sf_getId frameMain) ∉ result.1)
  ∧ (onWillUpdateViews (Some frameMain) result.2).1
    = [ForgetScopes (sf_getId frameMain); UpdateChildren].
Proof.
  assert (value variableX ≠ "43") as Hvalue by discriminate.
  destruct (edit_keeps_scopes_once variableX frameMain "43"
              (mkGlobals false None None) Hvalue) as (Heffects & _ & Hnext & _).
  split; [exact Hvalue|]. split; [|exact Hnext].
  rewrite Heffects. intros Hin%list_elem_of_In. simpl in Hin.
  destruct Hin as [Hin|[Hin|[Hin|[]]]]; discriminate Hin.
Defined.

Lemma variable_edit_needs_a_change_witness :
  onFinish_variable variableX (Some frameMain) "42" true initialGlobals
  = ([ClearErrorMessage (getId variableX)], initialGlobals)
  ∧ onFinish_variable variableX (Some frameMain) "43" true initialGlobals
    = ([ClearErrorMessage (getId variableX);
        SetVariable (getId variableX) "43" (sf_getId frameMain);
        UpdateChildren],
       initialGlobals).
Proof.
  destruct (variable_edit_needs_a_change variableX variableX (Some frameMain)
              "42" true initialGlobals) as (Hsame & _).
  destruct (variable_edit_needs_a_change variableX variableX (Some frameMain)
              "43" true initialGlobals) as (_ & Hchanged & _).
  split.
  - apply Hsame. right. left. reflexivity.
  - exact (Hchanged frameMain eq_refl ltac:(discriminate) eq_refl).
Defined.

Lemma copy_value_nothing_to_copy_witness :
  copyValue sampleMembers (ArgElement variableX) None initialGlobals (Some 1)
    (Some rejectingSession) = None.
Proof.
  destruct (copy_value_nothing_to_copy sampleMembers (ArgElement variableX)
              None initialGlobals (Some 1) (Some rejectingSession))
    as (_ & Hwatch & _).
  apply Hwatch. reflexivity.
Defined.

Lemma copy_value_falls_back_to_values_witness :
  let elements := Some [variableX; variableReadOnly] in
  variableReadOnly ∈ copyElements (ArgElement variableX) elements initialGlobals
  ∧ copyValue sampleMembers (ArgElement variableX) elements initialGlobals
      (Some 1) (Some rejectingSession)
    = Some (String.concat newline ["42"; "3"]).
Proof.
  assert (variableReadOnly
            ∈ copyElements (ArgElement variableX)
                (Some [variableX; variableReadOnly]) initialGlobals) as Hin
    by (apply list_elem_of_In; simpl; tauto).
  split; [exact Hin|].
  exact (copy_value_falls_back_to_values sampleMembers (ArgElement variableX)
           (Some [variableX; variableReadOnly]) initialGlobals 1
           rejectingSession variableReadOnly Hin eq_refl).
Defined.


Lemma view_memory_effects_witness :
  let missing := mkMemoryEnv (Some "session:1") false true in
  let failing := mkMemoryEnv (Some "session:1") false false in
  memoryTarget sampleMembers missing (ArgElement variableReadOnly)
    "session:1" "0x1000"
  ∧ viewMemory sampleMembers missing (ArgElement variableReadOnly)
    = [Install HEX_EDITOR_EXTENSION_ID;
       PublicLog "debug/didViewMemory" "session:1";
       OpenEditor "session:1" "0x1000" HEX_EDITOR_EDITOR_ID]
  ∧ viewMemory sampleMembers failing (ArgElement variableReadOnly)
    = [Install HEX_EDITOR_EXTENSION_ID; NotifyError].
Proof.
  assert (∀ env, focusedSessionId env = Some "session:1" →
            memoryTarget sampleMembers env (ArgElement variableReadOnly)
              "session:1" "0x1000") as Htarget.
  { intros env Hfocused. split; [reflexivity|]. split; [discriminate|].
    exact Hfocused. }
  split; [exact (Htarget (mkMemoryEnv (Some "session:1") false true) eq_refl)|].
  destruct (view_memory_effects sampleMembers
              (mkMemoryEnv (Some "session:1") false true)
              (ArgElement variableReadOnly)) as (Hmissing & _).
  destruct (view_memory_effects sampleMembers
              (mkMemoryEnv (Some "session:1") false false)
              (ArgElement variableReadOnly)) as (Hfailing & _).
  split.
  - exact (Hmissing _ _
             (Htarget (mkMemoryEnv (Some "session:1") false true) eq_refl)).
  - exact (Hfailing _ _
             (Htarget (mkMemoryEnv (Some "session:1") false false) eq_refl)).
Defined.

Lemma double_click_selects_only_editable_witness :
  let fired := Some (mkSelectEvent variableX false) in
  fired ∈ onMouseDblClick sampleMembers (Some sessionWithDataBreakpoints)
            (Some variableX)
  ∧ onMouseDblClick sampleMembers (Some sessionWithDataBreakpoints)
      (Some variableReadOnly) = []
  ∧ ∃ x, Some variableX = Some x ∧ fired = Some (mkSelectEvent x false).
Proof.
  assert (Some (mkSelectEvent variableX false)
            ∈ onMouseDblClick sampleMembers (Some sessionWithDataBreakpoints)
                (Some variableX)) as Hin
    by (apply list_elem_of_In; vm_compute; tauto).
  split; [exact Hin|]. split; [vm_compute; reflexivity|].
  destruct (double_click_selects_only_editable sampleMembers
              (Some sessionWithDataBreakpoints) (Some variableX) _ Hin)
    as (x & Hx & Hfired & _).
  exists x. split; assumption.
Defined.

Lemma disposed_view_ignores_events_witness :
  let s' := step Dispose pending in
  table (timers s') = [(0, 400)]
  ∧ step (DidFocusStackFrame (mkFocusEvent (Some frameMain) true)) s' = s'.
Proof.
  split; [vm_compute; reflexivity|].
  destruct (disposed_view_ignores_events pending Reachable_pending)
    as (_ & Hfocus & _).
  exact (Hfocus (mkFocusEvent (Some frameMain) true)).
Defined.

Lemma focus_and_visibility_do_not_refresh_witness :
  let explicit := DidFocusStackFrame (mkFocusEvent (Some frameHelper) true) in
  runs (step explicit shown) = runs shown
  ∧ input (tree (step explicit shown)) = Some frameMain
  ∧ table (timers (step explicit shown)) = [(0, 0)].
Proof.
  destruct (focus_and_visibility_do_not_refresh shown Reachable_shown)
    as (Hfocus & _).
  destruct (Hfocus (mkFocusEvent (Some frameHelper) true))
    as (Hruns & Hinput & _).
  split; [exact Hruns|]. split; [|vm_compute; reflexivity].
  rewrite Hinput. reflexivity.
Defined.

Lemma visibility_keeps_pending_refresh_witness :
  table (timers pending) = [(0, 400)]
  ∧ runs (step (Elapse 400 (mkEnv (Some frameHelper) [scopeGlobals]))
            (step (DidChangeBodyVisibility false) pending))
    = S (runs pending).
Proof.
  assert (table (timers pending) = [(0, 400)]) as Htb
    by (vm_compute; reflexivity).
  split; [exact Htb|].
  apply (visibility_keeps_pending_refresh pending false 0 400 400
           (mkEnv (Some frameHelper) [scopeGlobals]) Reachable_pending Htb);
    lia.
Defined.

Lemma aria_label_goes_with_template_witness :
  let errorScope := mkElement C_ErrorScope "scope:1:error" "Unavailable" ""
                      false false [] in
  VariablesDelegate.getTemplateId errorScope = ScopeErrorRenderer.ID
  ∧ getAriaLabel errorScope = Some "Scope Unavailable".
Proof.
  split; [reflexivity|].
  destruct (aria_label_goes_with_template
              (mkElement C_ErrorScope "scope:1:error" "Unavailable" ""
                 false false [])) as (Hscope & _).
  apply Hscope. right. reflexivity.
Defined.
